(** * Google Calendar event sensor: [homeassistant/components/google/calendar.py]

    A shallow embedding of the calendar platform of the Google integration:
    the query construction ([_prepare_query]), the visibility filter
    ([_event_filter]), the paginated ranged fetch ([async_get_events],
    [async_get_events_page]), the throttled poll ([update]) and the entity's
    own [update].

    Python dictionaries are finite maps from strings to Python values, the
    remote calendar service is an interface whose calls thread a world state
    and may raise, and every call records the requests it sends. *)

From Stdlib Require Import ZArith.
From stdpp Require Import gmap strings list fin_maps.

Set Warnings "-register-all".

Local Open Scope Z_scope.

(** ** Python values *)

(** The values that occur in the JSON bodies and in the keyword arguments of
    the calendar API.  Nested objects keep their fields as an association
    list. *)
Inductive pyval : Type :=
| VNone
| VBool (b : bool)
| VInt (n : Z)
| VStr (s : string)
| VList (l : list pyval)
| VDict (d : list (string * pyval)).

(** [dict[str, Any]] *)
Abbreviation pydict := (gmap string pyval).

(** An event is an opaque key-value record returned by the API. *)
Abbreviation Event := (gmap string pyval).

(** [d.get(key, dflt)] *)
Definition dict_get (d : pydict) (key : string) (dflt : pyval) : pyval :=
  default dflt (d !! key).

(** [v == s] for a [str] [s]: only an equal [str] compares equal. *)
Definition eq_str (v : pyval) (s : string) : bool :=
  match v with
  | VStr s' => String.eqb s' s
  | _ => false
  end.

(** Truth value of a [str | None], as tested by [if x:] and [not x]. *)
Definition truthy (x : option string) : bool :=
  match x with
  | None => false
  | Some s => negb (String.eqb s "")
  end.

(** A [str | None] as a Python value. *)
Definition of_optional (x : option string) : pyval :=
  match x with
  | None => VNone
  | Some s => VStr s
  end.

(** ** [datetime] and [isoformat] *)

(** A [datetime]; [utcoffset] is [None] for a naive value and the offset
    from UTC in minutes for an aware one. *)
Record datetime : Type := {
  year : Z; month : Z; day : Z;
  hour : Z; minute : Z; second : Z; microsecond : Z;
  utcoffset : option Z
}.

Definition digit (n : Z) : string :=
  String (Ascii.ascii_of_N (48 + Z.to_N (n mod 10))) EmptyString.

(** ["%0wd" % n] for [0 <= n < 10^w]. *)
Fixpoint zfill (w : nat) (n : Z) : string :=
  match w with
  | O => ""
  | S w' => zfill w' (n / 10) +:+ digit n
  end.

(** [d.isoformat("T")] *)
Definition isoformat (d : datetime) : string :=
  zfill 4 (year d) +:+ "-" +:+ zfill 2 (month d) +:+ "-" +:+ zfill 2 (day d)
  +:+ "T"
  +:+ zfill 2 (hour d) +:+ ":" +:+ zfill 2 (minute d) +:+ ":" +:+ zfill 2 (second d)
  +:+ (if microsecond d =? 0 then "" else "." +:+ zfill 6 (microsecond d))
  +:+ match utcoffset d with
      | None => ""
      | Some off =>
          (if off <? 0 then "-" else "+")
          +:+ zfill 2 (Z.abs off / 60) +:+ ":" +:+ zfill 2 (Z.abs off mod 60)
      end.

(** ** Effects: remote calls, exceptions, the error log *)

Inductive exn : Type :=
| ServerNotFoundError (msg : string)
| OtherError (msg : string).

(** How a call ends: it returns, it raises, or the loop bound of the model
    ran out before it ended. *)
Inductive outcome (A : Type) : Type :=
| Return (a : A)
| Raise (e : exn)
| OutOfFuel.
Arguments Return {A} a.
Arguments Raise {A} e.
Arguments OutOfFuel {A}.

(** The body of a response to [events.list]: both keys may be absent. *)
Record Response : Type := {
  items : option (list Event);
  nextPageToken : option string
}.

(** The calendar service the module talks to.  [get] is
    [GoogleCalendarService.get()], which builds the API client;
    [execute svc w params] is [svc.events().list(params).execute()].
    Both act on the state [W] of the outside world. *)
Class CalendarService (W Service : Type) : Type := {
  get : W -> W * outcome Service;
  execute : Service -> W -> pydict -> W * outcome Response
}.

(** What a computation threads: the outside world, the requests sent to
    [events.list] so far (oldest first) and the messages given to
    [_LOGGER.error]. *)
Record Env (W : Type) : Type := {
  world : W;
  requests : list pydict;
  errors : list string
}.
Arguments world {W} e.
Arguments requests {W} e.
Arguments errors {W} e.

(** A computation over a state [St]: it ends with a new state and an
    outcome. *)
Definition M (St A : Type) : Type := St -> St * outcome A.

#[global] Instance M_ret {St} : MRet (M St) :=
  fun A a st => (st, Return a).

#[global] Instance M_bind {St} : MBind (M St) :=
  fun A B k m st =>
    match m st with
    | (st', Return a) => k a st'
    | (st', Raise e) => (st', Raise e)
    | (st', OutOfFuel) => (st', OutOfFuel)
    end.

Definition raise {St A} (e : exn) : M St A := fun st => (st, Raise e).

(** The loop bound of the model is used up. *)
Definition out_of_fuel {St A} : M St A := fun st => (st, OutOfFuel).

(** [try: body  except ServerNotFoundError as err: handler err] *)
Definition try_except_ServerNotFoundError {St A}
    (body : M St A) (handler : string -> M St A) : M St A :=
  fun st =>
    match body st with
    | (st', Raise (ServerNotFoundError err)) => handler err st'
    | r => r
    end.

(** [_LOGGER.error(msg)] *)
Definition log_error {W} (msg : string) : M (Env W) unit :=
  fun env =>
    ({| world := world env; requests := requests env;
        errors := errors env ++ [msg] |}, Return tt).

Section Calls.
Context {W Service : Type} `{CalendarService W Service}.

(** [self.calendar_service.get()] *)
Definition calendar_service_get : M (Env W) Service :=
  fun env =>
    let '(w, r) := get (world env) in
    ({| world := w; requests := requests env; errors := errors env |}, r).

(** [events.list(params).execute()]: the request is sent, then the
    service answers or the call raises. *)
Definition events_list_execute (events : Service) (params : pydict)
  : M (Env W) Response :=
  fun env =>
    let '(w, r) := execute events (world env) params in
    ({| world := w; requests := requests env ++ [params];
        errors := errors env |}, r).
End Calls.

(** ** Module constants *)

Definition DEFAULT_GOOGLE_SEARCH_PARAMS : pydict :=
  <["singleEvents" := VBool true]> (<["orderBy" := VStr "startTime"]> ∅).

(** [timedelta(minutes=15)], in microseconds. *)
Definition MIN_TIME_BETWEEN_UPDATES : Z := 15 * 60 * 1000000.

Definition TRANSPARENCY : string := "transparency".
Definition OPAQUE : string := "opaque".

(** ** The throttle of the host platform *)

(** Modelled from the spec: the decorator [Throttle] of [homeassistant.util]
    is not among the sources.  It is the minimum-interval gate of the spec:
    a call runs the method when the method never ran or when more than
    [min_time] has passed since its last run, and then remembers the time;
    any other call is a no-op that leaves everything as it was.  The clock
    of the host is injected as [utcnow], [last] and [set_last] read and
    write the time the decorator keeps on the host object. *)
Definition throttle_open (min_time utcnow : Z) (last : option Z) : bool :=
  match last with
  | None => true
  | Some t => min_time <? utcnow - t
  end.

Definition Throttle {St S : Type} (min_time : Z)
    (last : S -> option Z) (set_last : S -> option Z -> S)
    (method : S -> M St S) (utcnow : Z) (self : S) : M St S :=
  if throttle_open min_time utcnow (last self)
  then self' ← method self; mret (set_last self' (Some utcnow))
  else mret self.

(** ** [GoogleCalendarData] *)

Module GoogleCalendarData.

(** The object's attributes.  [_throttle] is the attribute the [Throttle]
    decorator keeps on its host: the time of the last real run of
    [update]. *)
Record t : Type := {
  calendar_id : string;
  search : option string;
  ignore_availability : bool;
  event : option Event;
  _throttle : option Z
}.

(** [self.event = ev] *)
Definition set_event (self : t) (ev : option Event) : t :=
  {| calendar_id := calendar_id self; search := search self;
     ignore_availability := ignore_availability self;
     event := ev; _throttle := _throttle self |}.

Definition set_throttle (self : t) (last : option Z) : t :=
  {| calendar_id := calendar_id self; search := search self;
     ignore_availability := ignore_availability self;
     event := event self; _throttle := last |}.

(** [GoogleCalendarData.__init__] *)
Definition __init__ (calendar_id : string) (search : option string)
    (ignore_availability : bool) : t :=
  {| calendar_id := calendar_id; search := search;
     ignore_availability := ignore_availability;
     event := None; _throttle := None |}.

(** [GoogleCalendarData._event_filter] *)
Definition _event_filter (self : t) (event : Event) : bool :=
  if ignore_availability self then true
  else eq_str (dict_get event TRANSPARENCY (VStr OPAQUE)) OPAQUE.

(** The dictionary [_prepare_query] builds after it has the service. *)
Definition query_params (self : t) : pydict :=
  let params := DEFAULT_GOOGLE_SEARCH_PARAMS in
  let params := <["calendarId" := VStr (calendar_id self)]> params in
  let params := <["maxResults" := VInt 100]> params in
  if truthy (search self)
  then <["q" := of_optional (search self)]> params
  else params.

Section Methods.
Context {W Service : Type} `{CalendarService W Service}.

(** [GoogleCalendarData._prepare_query]; the handler of the [try] leaves
    the function with [(None, None)]. *)
Definition _prepare_query (self : t) : M (Env W) (option Service * option pydict) :=
  r ← try_except_ServerNotFoundError
        (service ← calendar_service_get; mret (inr service))
        (fun err =>
           _ ← log_error ("Unable to connect to Google: " +:+ err);
           mret (inl (None, None)));
  match r with
  | inl early => mret early
  | inr service => mret (Some service, Some (query_params self))
  end.

(** [GoogleCalendarData.async_get_events_page]: the dictionary [params]
    and the list [event_list] are updated in place, so both are handed
    back with the returned token. *)
Definition async_get_events_page (self : t) (events : Service)
    (params : pydict) (page_token : option string) (event_list : list Event)
  : M (Env W) (pydict * list Event * option string) :=
  let params := <["pageToken" := of_optional page_token]> params in
  result ← events_list_execute events params;
  let items := default [] (items result) in
  let visible_items := List.filter (_event_filter self) items in
  let event_list := event_list ++ visible_items in
  mret (params, event_list, nextPageToken result).

(** The [while True] loop of [async_get_events], at most [fuel] turns. *)
Fixpoint async_get_events_loop (fuel : nat) (self : t) (events : Service)
    (params : pydict) (page_token : option string) (event_list : list Event)
  : M (Env W) (list Event) :=
  match fuel with
  | O => out_of_fuel
  | S fuel' =>
      '(params, event_list, page_token) ←
        async_get_events_page self events params page_token event_list;
      if negb (truthy page_token) then mret event_list
      else async_get_events_loop fuel' self events params page_token event_list
  end.

(** [GoogleCalendarData.async_get_events] *)
Definition async_get_events (fuel : nat) (self : t)
    (start_date end_date : datetime) : M (Env W) (list Event) :=
  '(service, params) ← _prepare_query self;
  match service, params with
  | Some service, Some params =>
      let params := <["timeMin" := VStr (isoformat start_date)]> params in
      let params := <["timeMax" := VStr (isoformat end_date)]> params in
      let event_list := [] in
      let events := service in
      let page_token := None in
      async_get_events_loop fuel self events params page_token event_list
  | _, _ => mret []
  end.

(** The body of [GoogleCalendarData.update], under the decorator; [now] is
    the reading of [dt.now()]. *)
Definition update_body (now : datetime) (self : t) : M (Env W) t :=
  '(service, params) ← _prepare_query self;
  match service, params with
  | Some service, Some params =>
      let params := <["timeMin" := VStr (isoformat now)]> params in
      let events := service in
      result ← events_list_execute events params;
      let items := default [] (items result) in
      let valid_events := List.filter (_event_filter self) items in
      mret (set_event self (head valid_events))
  | _, _ => mret self
  end.

(** [GoogleCalendarData.update], decorated with
    [Throttle(MIN_TIME_BETWEEN_UPDATES)]. *)
Definition update (utcnow : Z) (now : datetime) (self : t) : M (Env W) t :=
  Throttle MIN_TIME_BETWEEN_UPDATES _throttle set_throttle
    (update_body now) utcnow self.

End Methods.
End GoogleCalendarData.

(** ** [GoogleCalendarEventDevice] *)

(** [copy.deepcopy]: values are immutable here, a copy is the value. *)
Definition deepcopy {A : Type} (x : A) : A := x.

(** A helper of the calendar component that may raise. *)
Definition lift {St A} (r : exn + A) : M St A :=
  match r with
  | inl e => raise e
  | inr a => mret a
  end.

Module GoogleCalendarEventDevice.

Record t : Type := {
  data : GoogleCalendarData.t;
  _event : option Event;
  _name : string;
  _offset : string;
  _offset_reached : bool;
  entity_id : string
}.

(** [GoogleCalendarEventDevice.__init__], with the configuration entries
    already read: [search] is [data.get(CONF_SEARCH)],
    [ignore_availability] is [data.get(CONF_IGNORE_AVAILABILITY, False)]
    and [offset] is [data.get(CONF_OFFSET, DEFAULT_CONF_OFFSET)]. *)
Definition __init__ (calendar_id : string) (search : option string)
    (ignore_availability : bool) (name offset entity_id : string) : t :=
  {| data := GoogleCalendarData.__init__ calendar_id search ignore_availability;
     _event := None; _name := name; _offset := offset;
     _offset_reached := false; entity_id := entity_id |}.

(** [extra_state_attributes] *)
Definition extra_state_attributes (self : t) : pydict :=
  {[ "offset_reached" := VBool (_offset_reached self) ]}.

(** [event] *)
Definition event (self : t) : option Event := _event self.

(** [name] *)
Definition name (self : t) : string := _name self.

Definition set_data (self : t) (d : GoogleCalendarData.t) : t :=
  {| data := d; _event := _event self; _name := _name self;
     _offset := _offset self; _offset_reached := _offset_reached self;
     entity_id := entity_id self |}.

Definition set__event (self : t) (ev : option Event) : t :=
  {| data := data self; _event := ev; _name := _name self;
     _offset := _offset self; _offset_reached := _offset_reached self;
     entity_id := entity_id self |}.

Definition set__offset_reached (self : t) (b : bool) : t :=
  {| data := data self; _event := _event self; _name := _name self;
     _offset := _offset self; _offset_reached := b;
     entity_id := entity_id self |}.

Section Methods.
Context {W Service : Type} `{CalendarService W Service}.

(** The helpers [calculate_offset] and [is_offset_reached] of
    [homeassistant.components.calendar]; the second reads the clock. *)
Variable calculate_offset : Event -> string -> exn + Event.
Variable is_offset_reached : datetime -> Event -> exn + bool.

(** A method of the entity runs on the entity and the environment: what
    it has assigned to [self] before it raises stays assigned. *)
Abbreviation Method := (M (t * Env W)).

(** Read [self]. *)
Definition self_ : Method t := fun st => (st, Return (fst st)).

(** [self.attr = v], with [set] the assignment to [attr]. *)
Definition assign {A} (set : t -> A -> t) (v : A) : Method unit :=
  fun st => ((set (fst st) v, snd st), Return tt).

(** Call a method of [self.data]: it updates that object in place. *)
Definition call_data (m : GoogleCalendarData.t -> M (Env W) GoogleCalendarData.t)
  : Method unit :=
  fun st =>
    match m (data (fst st)) (snd st) with
    | (env', Return d) => ((set_data (fst st) d, env'), Return tt)
    | (env', Raise e) => ((fst st, env'), Raise e)
    | (env', OutOfFuel) => ((fst st, env'), OutOfFuel)
    end.

(** [GoogleCalendarEventDevice.async_get_events] *)
Definition async_get_events (fuel : nat) (self : t)
    (start_date end_date : datetime) : M (Env W) (list Event) :=
  GoogleCalendarData.async_get_events fuel (data self) start_date end_date.

(** [GoogleCalendarEventDevice.update] *)
Definition update (utcnow : Z) (now : datetime) : Method unit :=
  _ ← call_data (GoogleCalendarData.update utcnow now);
  self ← self_;
  let event := deepcopy (GoogleCalendarData.event (data self)) in
  match event with
  | None => assign set__event event
  | Some event =>
      event ← lift (calculate_offset event (_offset self));
      reached ← lift (is_offset_reached now event);
      _ ← assign set__offset_reached reached;
      assign set__event (Some event)
  end.

End Methods.
End GoogleCalendarEventDevice.

(** ** What the specification says, in its own words *)

(** The transparency of an event, "opaque" when the field is absent. *)
Definition transparency_of (ev : Event) : pyval :=
  default (VStr "opaque") (ev !! "transparency").

(** The visibility predicate of the specification: keep the event if
    availability is ignored or its transparency equals "opaque". *)
Definition keeps (ignore : bool) (ev : Event) : Prop :=
  ignore = true ∨ transparency_of ev = VStr "opaque".

(** The first element of a list that passes a test, if there is one. *)
Fixpoint first_passing {A : Type} (test : A -> bool) (l : list A) : option A :=
  match l with
  | [] => None
  | x :: l' => if test x then Some x else first_passing test l'
  end.

(** The items of a page, none when the key is absent. *)
Definition page_items (r : Response) : list Event := default [] (items r).

(** The tokens sent with the requests for [pages]: [page_token] with the
    first, then the token each page returned with the request after it. *)
Fixpoint tokens_sent (page_token : option string) (pages : list Response)
  : list (option string) :=
  match pages with
  | [] => []
  | r :: rest => page_token :: tokens_sent (nextPageToken r) rest
  end.

(** The query sent with a token. *)
Definition with_token (params : pydict) (page_token : option string) : pydict :=
  <["pageToken" := of_optional page_token]> params.

(** The query [update] sends: the parameter set with its lower time bound. *)
Definition poll_query (self : GoogleCalendarData.t) (now : datetime) : pydict :=
  <["timeMin" := VStr (isoformat now)]> (GoogleCalendarData.query_params self).

(** The query [async_get_events] pages with: the parameter set with both
    bounds of the window. *)
Definition range_query (self : GoogleCalendarData.t)
    (start_date end_date : datetime) : pydict :=
  <["timeMax" := VStr (isoformat end_date)]>
    (<["timeMin" := VStr (isoformat start_date)]>
       (GoogleCalendarData.query_params self)).

Section Pages.
Context {W Service : Type} `{CalendarService W Service}.

(** [serves events params w tok pages w']: from the world [w], asked with
    [params] and the token [tok], the service answers the first of [pages];
    each page but the last carries a continuation token, and asked with it
    the service answers the page after; the last page carries no token and
    leaves the world [w']. *)
Inductive serves (events : Service) (params : pydict)
  : W -> option string -> list Response -> W -> Prop :=
| serves_last (w w' : W) (tok : option string) (r : Response) :
    execute events w (with_token params tok) = (w', Return r) ->
    nextPageToken r = None ->
    serves events params w tok [r] w'
| serves_next (w w' w'' : W) (tok : option string) (r : Response)
    (t : string) (rest : list Response) :
    execute events w (with_token params tok) = (w', Return r) ->
    nextPageToken r = Some t ->
    t ≠ "" ->
    serves events params w' (Some t) rest w'' ->
    serves events params w tok (r :: rest) w''.

End Pages.

(** ** Sample data and services *)

Definition sample_event (summary : string) (transparency : option string)
  : Event :=
  match transparency with
  | None => {[ "summary" := VStr summary ]}
  | Some x => <["transparency" := VStr x]> {[ "summary" := VStr summary ]}
  end.

Definition page_1 : Response :=
  {| items := Some [sample_event "standup" None;
                    sample_event "lunch" (Some "transparent")];
     nextPageToken := Some "T" |}.

Definition page_2 : Response :=
  {| items := Some [sample_event "review" (Some "opaque")];
     nextPageToken := None |}.

(** A service with two pages of results: the second is served for the
    token of the first. *)
Definition two_pages : CalendarService unit unit :=
  {| get := fun w => (w, Return tt);
     execute := fun _ w params =>
       match params !! "pageToken" with
       | Some VNone => (w, Return page_1)
       | Some (VStr "T") => (w, Return page_2)
       | _ => (w, Return page_1)
       end |}.

(** A service whose calendar has no events. *)
Definition no_events : CalendarService unit unit :=
  {| get := fun w => (w, Return tt);
     execute := fun _ w _ => (w, Return {| items := Some []; nextPageToken := None |}) |}.

(** A service that cannot be reached. *)
Definition unreachable : CalendarService unit unit :=
  {| get := fun w => (w, Raise (ServerNotFoundError "www.googleapis.com"));
     execute := fun _ w _ => (w, Raise (ServerNotFoundError "www.googleapis.com")) |}.

Definition env0 : Env unit := {| world := tt; requests := []; errors := [] |}.

Definition meeting_data : GoogleCalendarData.t :=
  GoogleCalendarData.__init__ "primary" (Some "meeting") false.

Definition at_midnight (y m d : Z) : datetime :=
  {| year := y; month := m; day := d; hour := 0; minute := 0; second := 0;
     microsecond := 0; utcoffset := None |}.

(** A data object with a cached event, and an entity whose last event had
    reached its offset. *)
Definition cached_data : GoogleCalendarData.t :=
  GoogleCalendarData.set_event meeting_data (Some (sample_event "standup" None)).

Definition stale_entity : GoogleCalendarEventDevice.t :=
  {| GoogleCalendarEventDevice.data := meeting_data;
     GoogleCalendarEventDevice._event := Some (sample_event "standup" None);
     GoogleCalendarEventDevice._name := "Meetings";
     GoogleCalendarEventDevice._offset := "!!";
     GoogleCalendarEventDevice._offset_reached := true;
     GoogleCalendarEventDevice.entity_id := "calendar.meetings" |}.

(** Stand-ins for the helpers of the calendar component. *)
Definition no_offset (ev : Event) (offset : string) : exn + Event := inr ev.
Definition never_reached (now : datetime) (ev : Event) : exn + bool := inr false.
Definition always_reached (now : datetime) (ev : Event) : exn + bool := inr true.

(** ** [setup_platform] *)

(** An entry of [disc_info[CONF_ENTITIES]], with the types the schema of
    the integration gives its keys.  [track], [device_id] and [name] are
    read with [data[...]], the other keys with [data.get(...)] and may be
    absent. *)
Record EntityConfig : Type := {
  conf_track : bool;
  conf_device_id : string;
  conf_name : string;
  conf_search : option string;
  conf_ignore_availability : option bool;
  conf_offset : option string
}.

(** [disc_info]: the calendar id and the entries of its entities. *)
Record DiscoveryInfo : Type := {
  conf_cal_id : string;
  conf_entities : list EntityConfig
}.

Section Platform.
(** What the platform takes from the host: the format of entity ids, the
    default offset marker and the function that makes an entity id. *)
Variable ENTITY_ID_FORMAT : string.
Variable DEFAULT_CONF_OFFSET : string.
Variable generate_entity_id : string -> string -> string.

(** [GoogleCalendarEventDevice(calendar_service, calendar_id, data, entity_id)] *)
Definition new_entity (calendar_id : string) (data : EntityConfig)
    (entity_id : string) : GoogleCalendarEventDevice.t :=
  GoogleCalendarEventDevice.__init__ calendar_id
    (conf_search data)
    (default false (conf_ignore_availability data))
    (conf_name data)
    (default DEFAULT_CONF_OFFSET (conf_offset data))
    entity_id.

(** The entity of an entry: its id is made from the entry's device id. *)
Definition entity_of (calendar_id : string) (data : EntityConfig)
  : GoogleCalendarEventDevice.t :=
  new_entity calendar_id data
    (generate_entity_id ENTITY_ID_FORMAT (conf_device_id data)).

(** The [for] loop of [setup_platform] over the entries left to visit,
    with the list [entities] built so far. *)
Fixpoint setup_platform_loop (calendar_id : string) (datas : list EntityConfig)
    (entities : list GoogleCalendarEventDevice.t)
  : list GoogleCalendarEventDevice.t :=
  match datas with
  | [] => entities
  | data :: datas' =>
      if negb (conf_track data)
      then setup_platform_loop calendar_id datas' entities
      else
        let entity_id :=
          generate_entity_id ENTITY_ID_FORMAT (conf_device_id data) in
        let entity := new_entity calendar_id data entity_id in
        setup_platform_loop calendar_id datas' (entities ++ [entity])
  end.

(** [setup_platform]: the arguments of its call of [add_entities], the
    list of entities and the flag to update them before they are added, or
    [None] when it returns without that call. *)
Definition setup_platform (disc_info : option DiscoveryInfo)
  : option (list GoogleCalendarEventDevice.t * bool) :=
  match disc_info with
  | None => None
  | Some disc_info =>
      if negb (existsb conf_track (conf_entities disc_info)) then None
      else
        let entities :=
          setup_platform_loop (conf_cal_id disc_info)
            (conf_entities disc_info) [] in
        Some (entities, true)
  end.

End Platform.

(** ** More sample data and services *)

(** A service that answers every request with a page and a token for the
    next one. *)
Definition endless : CalendarService unit unit :=
  {| get := fun w => (w, Return tt);
     execute := fun _ w _ => (w, Return page_1) |}.

(** A service whose client is built but whose requests fail. *)
Definition failing_request : CalendarService unit unit :=
  {| get := fun w => (w, Return tt);
     execute := fun _ w _ => (w, Raise (ServerNotFoundError "www.googleapis.com")) |}.

(** A service whose client cannot be built, for another reason than the
    network. *)
Definition broken : CalendarService unit unit :=
  {| get := fun w => (w, Raise (OtherError "invalid_grant"));
     execute := fun _ w _ => (w, Raise (OtherError "invalid_grant")) |}.

(** A service whose only page ends with an empty token. *)
Definition empty_token : CalendarService unit unit :=
  {| get := fun w => (w, Return tt);
     execute := fun _ w _ =>
       (w, Return {| items := Some [sample_event "standup" None];
                     nextPageToken := Some "" |}) |}.

(** A service whose calendar holds one event that does not block time. *)
Definition free_only : CalendarService unit unit :=
  {| get := fun w => (w, Return tt);
     execute := fun _ w _ =>
       (w, Return {| items := Some [sample_event "lunch" (Some "transparent")];
                     nextPageToken := None |}) |}.

(** A service that fails on the second page. *)
Definition second_page_fails : CalendarService unit unit :=
  {| get := fun w => (w, Return tt);
     execute := fun _ w params =>
       match params !! "pageToken" with
       | Some VNone => (w, Return page_1)
       | _ => (w, Raise (OtherError "backendError"))
       end |}.

Definition failing_reached (now : datetime) (ev : Event) : exn + bool :=
  inl (OtherError "start").

Definition sample_discovery : DiscoveryInfo :=
  {| conf_cal_id := "primary";
     conf_entities :=
       [ {| conf_track := true; conf_device_id := "work"; conf_name := "Work";
            conf_search := Some "meeting"; conf_ignore_availability := None;
            conf_offset := None |};
         {| conf_track := false; conf_device_id := "home"; conf_name := "Home";
            conf_search := None; conf_ignore_availability := Some true;
            conf_offset := Some "##" |};
         {| conf_track := true; conf_device_id := "all"; conf_name := "All";
            conf_search := None; conf_ignore_availability := Some true;
            conf_offset := Some "##" |} ] |}.

Definition sample_entity_id (fmt name : string) : string := fmt +:+ name.

(** * Properties *)

Import GoogleCalendarData.

(** ** Running a computation *)

Lemma bind_Return {St A B} (m : M St A) (k : A -> M St B) st st' a :
  m st = (st', Return a) -> (m ≫= k) st = k a st'.
Proof. intros Hm. unfold mbind, M_bind. by rewrite Hm. Qed.

Lemma bind_Raise {St A B} (m : M St A) (k : A -> M St B) st st' e :
  m st = (st', Raise e) -> (m ≫= k) st = (st', Raise e).
Proof. intros Hm. unfold mbind, M_bind. by rewrite Hm. Qed.

Lemma eq_str_true (v : pyval) (s : string) :
  eq_str v s = true <-> v = VStr s.
Proof.
  destruct v; simpl; try (split; [discriminate | intros [=]]).
  rewrite String.eqb_eq. split; [by intros -> | by intros [= ->]].
Qed.

Lemma truthy_Some (t : string) : t ≠ "" -> truthy (Some t) = true.
Proof.
  intros Ht. simpl. apply negb_true_iff. by apply String.eqb_neq.
Qed.

Lemma with_token_overwrite (params : pydict) (tok tok' : option string) :
  with_token (with_token params tok') tok = with_token params tok.
Proof. unfold with_token. apply insert_insert_eq. Qed.

(** ** The visibility filter *)

(** C1. The filter keeps an event if and only if availability is ignored or
    the event's transparency, "opaque" when absent, equals "opaque"; an
    event without the field is kept, and an event whose transparency is
    "transparent" is kept only when availability is ignored. *)
Theorem event_filter_keeps (self : GoogleCalendarData.t) (ev : Event) :
  (_event_filter self ev = true <-> keeps (ignore_availability self) ev)
  ∧ (ev !! "transparency" = None -> _event_filter self ev = true)
  ∧ (ev !! "transparency" = Some (VStr "transparent") ->
     _event_filter self ev = ignore_availability self).
Proof.
  unfold _event_filter, keeps, transparency_of, dict_get, TRANSPARENCY, OPAQUE.
  split; [|split].
  - destruct (ignore_availability self).
    + split; [by left | done].
    + rewrite eq_str_true. split; [by right | by intros [? | ?]].
  - intros ->. by destruct (ignore_availability self).
  - intros ->. by destruct (ignore_availability self).
Qed.

Lemma event_filter_keeps_witness :
  _event_filter meeting_data (sample_event "standup" None) = true
  ∧ _event_filter meeting_data (sample_event "review" (Some "opaque")) = true
  ∧ _event_filter meeting_data (sample_event "lunch" (Some "transparent")) = false.
Proof.
  split; [|split].
  - apply (proj1 (proj2 (event_filter_keeps meeting_data
                           (sample_event "standup" None)))); reflexivity.
  - apply (proj1 (event_filter_keeps meeting_data
                    (sample_event "review" (Some "opaque")))).
    right. reflexivity.
  - apply (proj2 (proj2 (event_filter_keeps meeting_data
                           (sample_event "lunch" (Some "transparent"))))).
    reflexivity.
Defined.

Lemma head_filter {A : Type} (test : A -> bool) (l : list A) :
  head (List.filter test l) = first_passing test l.
Proof.
  induction l as [|x l IH]; simpl; [done|]. by destruct (test x).
Qed.

Lemma query_params_lookup (self : GoogleCalendarData.t) :
  query_params self !! "orderBy" = Some (VStr "startTime")
  ∧ query_params self !! "singleEvents" = Some (VBool true)
  ∧ query_params self !! "maxResults" = Some (VInt 100)
  ∧ query_params self !! "calendarId" = Some (VStr (calendar_id self))
  ∧ query_params self !! "pageToken" = None
  ∧ query_params self !! "q"
    = (if truthy (search self) then Some (of_optional (search self)) else None).
Proof.
  unfold query_params, DEFAULT_GOOGLE_SEARCH_PARAMS.
  destruct (truthy (search self)); repeat split; by simplify_map_eq.
Qed.

Section Service.
Context {W Service : Type} {CS : CalendarService W Service}.
Implicit Types (self : GoogleCalendarData.t) (env : Env W) (w : W).

(** ** Query construction *)

Lemma prepare_query_reachable self env w (svc : Service) :
  get (world env) = (w, Return svc) ->
  _prepare_query self env =
    ({| world := w; requests := requests env; errors := errors env |},
     Return (Some svc, Some (query_params self))).
Proof.
  intros Hget. unfold _prepare_query, mbind, M_bind,
    try_except_ServerNotFoundError, calendar_service_get.
  by rewrite Hget.
Qed.

Lemma prepare_query_unreachable self env w (msg : string) :
  get (world env) = (w, Raise (ServerNotFoundError msg)) ->
  _prepare_query self env =
    ({| world := w; requests := requests env;
        errors := errors env ++ ["Unable to connect to Google: " +:+ msg] |},
     Return (None, None)).
Proof.
  intros Hget. unfold _prepare_query, mbind, M_bind,
    try_except_ServerNotFoundError, calendar_service_get.
  by rewrite Hget.
Qed.

(** C6. When the service is there, the parameter set that is built holds
    orderBy="startTime", singleEvents=true, maxResults=100 and the calendar
    id, and it holds the search string as q exactly when a search string
    that is not empty is configured. *)
Theorem prepare_query_parameters self env w (svc : Service) :
  get (world env) = (w, Return svc) ->
  ∃ params : pydict,
    _prepare_query self env =
      ({| world := w; requests := requests env; errors := errors env |},
       Return (Some svc, Some params))
    ∧ params !! "orderBy" = Some (VStr "startTime")
    ∧ params !! "singleEvents" = Some (VBool true)
    ∧ params !! "maxResults" = Some (VInt 100)
    ∧ params !! "calendarId" = Some (VStr (calendar_id self))
    ∧ (is_Some (params !! "q") <-> ∃ s, search self = Some s ∧ s ≠ "")
    ∧ (∀ s, search self = Some s -> s ≠ "" -> params !! "q" = Some (VStr s)).
Proof.
  intros Hget. exists (query_params self).
  destruct (query_params_lookup self) as (Ho & Hs & Hm & Hc & _ & Hq).
  split; [by apply prepare_query_reachable|].
  repeat (split; [done|]). rewrite Hq. split.
  - destruct (search self) as [s|] eqn:Hs'; simpl.
    + destruct (String.eqb_spec s ""); simpl.
      * split; [by intros [? [=]] | by intros (? & [= <-] & ?)].
      * split; [by exists s | by eexists].
    + split; [by intros [? [=]] | by intros (? & [=] & ?)].
  - intros s -> Hne. by rewrite truthy_Some.
Qed.

(** ** The poll *)

Lemma update_body_unreachable self (now : datetime) env w (msg : string) :
  get (world env) = (w, Raise (ServerNotFoundError msg)) ->
  update_body now self env =
    ({| world := w; requests := requests env;
        errors := errors env ++ ["Unable to connect to Google: " +:+ msg] |},
     Return self).
Proof.
  intros Hget. unfold update_body.
  by rewrite (bind_Return _ _ _ _ _ (prepare_query_unreachable self _ _ _ Hget)).
Qed.

Lemma update_body_reachable self (now : datetime) env w (svc : Service) :
  get (world env) = (w, Return svc) ->
  update_body now self env =
    (result ← events_list_execute svc (poll_query self now);
     mret (set_event self
             (head (List.filter (_event_filter self) (page_items result)))))
      {| world := w; requests := requests env; errors := errors env |}.
Proof.
  intros Hget. unfold update_body.
  by rewrite (bind_Return _ _ _ _ _ (prepare_query_reachable self _ _ _ Hget)).
Qed.

(** C4, as amended. When the service cannot be reached while the client
    is built, that is when [calendar_service.get()] raises
    ServerNotFoundError, a call of [update], throttled or not, returns
    without raising, sends no request and leaves the cached event as it
    was.  The guard is on that call alone: the claim as first stated, for
    every way the service can be out of reach, fails when the request of
    the poll raises the error. *)
Theorem update_unreachable self (utcnow : Z) (now : datetime) env w
    (msg : string) :
  get (world env) = (w, Raise (ServerNotFoundError msg)) ->
  ∃ env' self',
    update utcnow now self env = (env', Return self')
    ∧ event self' = event self
    ∧ requests env' = requests env.
Proof.
  intros Hget. unfold update, Throttle.
  destruct (throttle_open _ _ _).
  - rewrite (bind_Return _ _ _ _ _ (update_body_unreachable self now _ _ _ Hget)).
    by eexists _, _.
  - by eexists _, _.
Qed.

(** C5. A run of the body of [update] that reaches the service sends the
    query with timeMin set to the current time, and the cached event
    becomes the first event of the returned page that passes the filter,
    or None when no event of the page passes. *)
Theorem update_next_event self (now : datetime) env w w' (svc : Service)
    (r : Response) :
  get (world env) = (w, Return svc) ->
  execute svc w (poll_query self now) = (w', Return r) ->
  ∃ env' self',
    update_body now self env = (env', Return self')
    ∧ requests env' = requests env ++ [poll_query self now]
    ∧ poll_query self now !! "timeMin" = Some (VStr (isoformat now))
    ∧ event self' = first_passing (_event_filter self) (page_items r).
Proof.
  intros Hget Hexec. rewrite (update_body_reachable _ _ _ _ _ Hget).
  unfold mbind, M_bind, events_list_execute. simpl. rewrite Hexec.
  eexists _, _. split; [reflexivity|]. simpl.
  split; [done|]. split; [apply lookup_insert_eq|]. apply head_filter.
Qed.

(** The requests of a run of the body that reaches the service. *)
Lemma update_body_requests self (now : datetime) env w (svc : Service) :
  get (world env) = (w, Return svc) ->
  requests (update_body now self env).1 = requests env ++ [poll_query self now].
Proof.
  intros Hget. rewrite (update_body_reachable _ _ _ _ _ Hget).
  unfold mbind, M_bind, events_list_execute. simpl.
  by destruct (execute svc w (poll_query self now)) as [w' [r|e|]].
Qed.

(** C9. A run of the body of [update] that reaches the service sends one
    request and no more, whatever the answer is, also when the page comes
    with a continuation token; the request carries no page token. *)
Theorem update_single_request self (now : datetime) env w (svc : Service) :
  get (world env) = (w, Return svc) ->
  requests (update_body now self env).1 = requests env ++ [poll_query self now]
  ∧ length (requests (update_body now self env).1)
    = S (length (requests env))
  ∧ poll_query self now !! "pageToken" = None.
Proof.
  intros Hget. rewrite (update_body_requests _ _ _ _ _ Hget).
  split; [done|]. split.
  - rewrite length_app. simpl. lia.
  - unfold poll_query. rewrite lookup_insert_ne; [|done].
    apply query_params_lookup.
Qed.

(** ** The ranged fetch *)

(** C3, as amended. When the service cannot be reached while the client
    is built, that is when [calendar_service.get()] raises
    ServerNotFoundError, the ranged fetch returns the empty list: nothing
    is raised and no request is sent.  The guard is on that call alone: the
    claim as first stated, for every way the service can be out of reach,
    fails when a page request raises the error. *)
Theorem async_get_events_unreachable (fuel : nat) self
    (start_date end_date : datetime) env w (msg : string) :
  get (world env) = (w, Raise (ServerNotFoundError msg)) ->
  async_get_events fuel self start_date end_date env =
    ({| world := w; requests := requests env;
        errors := errors env ++ ["Unable to connect to Google: " +:+ msg] |},
     Return []).
Proof.
  intros Hget. unfold async_get_events.
  by rewrite (bind_Return _ _ _ _ _ (prepare_query_unreachable self _ _ _ Hget)).
Qed.

Lemma filter_concat {A : Type} (test : A -> bool) (ls : list (list A)) :
  concat (List.map (List.filter test) ls) = List.filter test (concat ls).
Proof.
  induction ls as [|l ls IH]; simpl; [done|].
  by rewrite List.filter_app, IH.
Qed.

Lemma tokens_sent_length (tok : option string) (pages : list Response) :
  length (tokens_sent tok pages) = length pages.
Proof.
  revert tok. induction pages as [|r pages IH]; intros tok; simpl; [done|].
  by rewrite IH.
Qed.

(** One turn of the loop, when the service answers. *)
Lemma events_page_Return self (events : Service) (params params0 : pydict)
    (tok : option string) (acc : list Event) env w' (r : Response) :
  (∀ t, with_token params0 t = with_token params t) ->
  execute events (world env) (with_token params tok) = (w', Return r) ->
  async_get_events_page self events params0 tok acc env =
    ({| world := w'; requests := requests env ++ [with_token params tok];
        errors := errors env |},
     Return (with_token params0 tok,
             acc ++ List.filter (_event_filter self) (page_items r),
             nextPageToken r)).
Proof.
  intros Hsame Hexec. unfold async_get_events_page.
  change (<["pageToken":=of_optional tok]> params0) with (with_token params0 tok).
  unfold mbind, M_bind, events_list_execute.
  rewrite Hsame, Hexec. reflexivity.
Qed.

(** The loop over pages that are served in turn. *)
Lemma events_loop_serves self (events : Service) (params : pydict)
    w (tok : option string) (pages : list Response) w' :
  serves events params w tok pages w' ->
  ∀ (fuel : nat) (params0 : pydict) (acc : list Event) env,
    (∀ t, with_token params0 t = with_token params t) ->
    (length pages <= fuel)%nat ->
    world env = w ->
    async_get_events_loop fuel self events params0 tok acc env =
      ({| world := w';
          requests := requests env
                      ++ List.map (with_token params) (tokens_sent tok pages);
          errors := errors env |},
       Return (acc ++ concat (List.map (fun r =>
                 List.filter (_event_filter self) (page_items r)) pages))).
Proof.
  induction 1 as [w w' tok r Hexec Htok | w w' w'' tok r t rest Hexec Htok Ht _ IH];
    intros fuel params0 acc env Hsame Hfuel Hw; subst w.
  - destruct fuel as [|fuel]; [simpl in Hfuel; lia|]. simpl.
    rewrite (bind_Return _ _ _ _ _
               (events_page_Return self _ _ _ _ acc _ _ _ Hsame Hexec)).
    rewrite Htok. simpl. by rewrite app_nil_r.
  - destruct fuel as [|fuel]; [simpl in Hfuel; lia|]. simpl.
    rewrite (bind_Return _ _ _ _ _
               (events_page_Return self _ _ _ _ acc _ _ _ Hsame Hexec)).
    rewrite Htok. rewrite (truthy_Some _ Ht). cbn [negb].
    rewrite IH; simpl.
    + by rewrite <- !app_assoc.
    + intros t'. by rewrite with_token_overwrite.
    + simpl in Hfuel. lia.
    + done.
Qed.

(** C2. When the service answers page after page, each page but the last
    with a continuation token, the ranged fetch sends one request per page,
    the first without a token and each later one with the token of the page
    before, and returns the items of all pages in order, filtered. *)
Theorem async_get_events_pages (fuel : nat) self
    (start_date end_date : datetime) env w w' (svc : Service)
    (pages : list Response) :
  get (world env) = (w, Return svc) ->
  serves svc (range_query self start_date end_date) w None pages w' ->
  (length pages <= fuel)%nat ->
  ∃ reqs : list pydict,
    async_get_events fuel self start_date end_date env =
      ({| world := w'; requests := requests env ++ reqs;
          errors := errors env |},
       Return (List.filter (_event_filter self)
                 (concat (List.map page_items pages))))
    ∧ reqs = List.map (with_token (range_query self start_date end_date))
               (tokens_sent None pages)
    ∧ length reqs = length pages.
Proof.
  intros Hget Hserves Hfuel. eexists. split; [|split; [reflexivity|]].
  - unfold async_get_events.
    rewrite (bind_Return _ _ _ _ _ (prepare_query_reachable self _ _ _ Hget)).
    cbv beta iota zeta.
    rewrite (events_loop_serves self _ _ _ _ _ _ Hserves); [|done..].
    simpl. by rewrite <- filter_concat, List.map_map.
  - by rewrite List.length_map, tokens_sent_length.
Qed.

(** The guard is on the connection only: an exception that a page request
    raises is not handled and ends the fetch. *)
Remark async_get_events_request_error (fuel : nat) self
    (start_date end_date : datetime) env w w' (svc : Service) (e : exn) :
  get (world env) = (w, Return svc) ->
  execute svc w (with_token (range_query self start_date end_date) None)
    = (w', Raise e) ->
  async_get_events (S fuel) self start_date end_date env =
    ({| world := w';
        requests := requests env
                    ++ [with_token (range_query self start_date end_date) None];
        errors := errors env |}, Raise e).
Proof.
  intros Hget Hexec. unfold async_get_events.
  rewrite (bind_Return _ _ _ _ _ (prepare_query_reachable self _ _ _ Hget)).
  cbv beta iota zeta. simpl.
  unfold mbind at 1, M_bind at 1.
  unfold async_get_events_page, mbind, M_bind, events_list_execute.
  unfold with_token, range_query in Hexec. simpl world.
  by rewrite Hexec.
Qed.

(** Whatever the service does, every request of the loop is the query with
    some page token, and a loop that may turn at all sends one. *)
Lemma events_loop_requests self (events : Service) (params : pydict)
    (fuel : nat) :
  ∀ (params0 : pydict) (tok : option string) (acc : list Event) env,
    (∀ t, with_token params0 t = with_token params t) ->
    ∃ toks : list (option string),
      requests (async_get_events_loop fuel self events params0 tok acc env).1
      = requests env ++ List.map (with_token params) toks
      ∧ (fuel ≠ O -> toks ≠ []).
Proof.
  induction fuel as [|fuel IH]; intros params0 tok acc env Hsame.
  - exists []. simpl. by rewrite app_nil_r.
  - simpl. unfold mbind at 1, M_bind at 1.
    unfold async_get_events_page, mbind, M_bind, events_list_execute.
    change (<["pageToken":=of_optional tok]> params0) with (with_token params0 tok).
    rewrite Hsame.
    destruct (execute events (world env) (with_token params tok))
      as [w' [r|e|]]; simpl; try by exists [tok].
    destruct (truthy (nextPageToken r)); simpl; [|by exists [tok]].
    edestruct (IH (with_token params tok) (nextPageToken r)
                 (acc ++ List.filter (_event_filter self) (default [] (items r)))
                 {| world := w'; requests := requests env ++ [with_token params tok];
                    errors := errors env |}) as (toks & Hreq & _).
    { intros t. by rewrite with_token_overwrite. }
    exists (tok :: toks). split; [|done].
    rewrite Hreq. simpl. by rewrite <- app_assoc.
Qed.

(** C8. A ranged fetch with the search "meeting" over the window from
    2024-01-01T00:00 to 2024-01-02T00:00 sends at least one request, and
    every request it sends carries q="meeting" and the two bounds in ISO
    format as timeMin and timeMax. *)
Theorem async_get_events_query (fuel : nat) self env w (svc : Service) :
  search self = Some "meeting" ->
  get (world env) = (w, Return svc) ->
  fuel ≠ O ->
  ∃ reqs : list pydict,
    requests (async_get_events fuel self (at_midnight 2024 1 1)
                (at_midnight 2024 1 2) env).1 = requests env ++ reqs
    ∧ reqs ≠ []
    ∧ Forall (fun params : pydict =>
                params !! "q" = Some (VStr "meeting")
                ∧ params !! "timeMin" = Some (VStr "2024-01-01T00:00:00")
                ∧ params !! "timeMax" = Some (VStr "2024-01-02T00:00:00")) reqs.
Proof.
  intros Hsearch Hget Hfuel. unfold async_get_events.
  rewrite (bind_Return _ _ _ _ _ (prepare_query_reachable self _ _ _ Hget)).
  cbv beta iota zeta.
  destruct (events_loop_requests self svc
              (range_query self (at_midnight 2024 1 1) (at_midnight 2024 1 2))
              fuel
              (range_query self (at_midnight 2024 1 1) (at_midnight 2024 1 2))
              None []
              {| world := w; requests := requests env; errors := errors env |})
    as (toks & Hreq & Hne); [done|].
  eexists. split; [exact Hreq|]. split.
  - intros Hnil. apply Hne; [done|]. by destruct toks.
  - apply Forall_forall. intros params Hin.
    apply list_elem_of_In, List.in_map_iff in Hin as (tok & <- & _).
    destruct (query_params_lookup self) as (_ & _ & _ & _ & _ & Hq).
    rewrite Hsearch in Hq. simpl in Hq.
    unfold with_token, range_query. by simplify_map_eq.
Qed.

(** ** The throttle *)

Lemma update_open self (utcnow : Z) (now : datetime) env :
  throttle_open MIN_TIME_BETWEEN_UPDATES utcnow (_throttle self) = true ->
  update utcnow now self env =
    (self' ← update_body now self; mret (set_throttle self' (Some utcnow))) env.
Proof. intros Hopen. unfold update, Throttle. by rewrite Hopen. Qed.

Lemma update_closed self (utcnow : Z) (now : datetime) env :
  throttle_open MIN_TIME_BETWEEN_UPDATES utcnow (_throttle self) = false ->
  update utcnow now self env = (env, Return self).
Proof. intros Hclosed. unfold update, Throttle. by rewrite Hclosed. Qed.

Lemma update_open_stamp self (utcnow : Z) (now : datetime) env env' self' :
  throttle_open MIN_TIME_BETWEEN_UPDATES utcnow (_throttle self) = true ->
  update utcnow now self env = (env', Return self') ->
  _throttle self' = Some utcnow.
Proof.
  intros Hopen. rewrite (update_open _ _ _ _ Hopen). unfold mbind, M_bind.
  destruct (update_body now self env) as [env1 [self1|e|]]; [|done..].
  by intros [= _ <-].
Qed.

(** C7. After a call of [update] that passed the gate at [t1] and returned,
    a call less than the minimum interval later sends no request and leaves
    the object, with its cached event, as the first call left it; a call
    more than the interval later runs the body again and sends a fresh
    query. *)
Theorem update_throttle self (t1 t2 t3 : Z) (now1 now2 now3 : datetime)
    env env1 self1 w (svc : Service) :
  throttle_open MIN_TIME_BETWEEN_UPDATES t1 (_throttle self) = true ->
  update t1 now1 self env = (env1, Return self1) ->
  t1 <= t2 ->
  t2 - t1 < MIN_TIME_BETWEEN_UPDATES ->
  MIN_TIME_BETWEEN_UPDATES < t3 - t1 ->
  get (world env1) = (w, Return svc) ->
  update t2 now2 self1 env1 = (env1, Return self1)
  ∧ requests (update t3 now3 self1 env1).1
    = requests env1 ++ [poll_query self1 now3].
Proof.
  intros Hopen Hfirst Hle Hlt Hgt Hget.
  pose proof (update_open_stamp _ _ _ _ _ _ Hopen Hfirst) as Hstamp.
  split.
  - apply update_closed. rewrite Hstamp. simpl. apply Z.ltb_ge. lia.
  - rewrite update_open by (rewrite Hstamp; simpl; by apply Z.ltb_lt).
    pose proof (update_body_requests self1 now3 env1 w svc Hget) as Hreq.
    unfold mbind, M_bind.
    destruct (update_body now3 self1 env1) as [env3 [self3|e|]]; exact Hreq.
Qed.

End Service.

(** ** The entity *)

Section Entity.
Context {W Service : Type} {CS : CalendarService W Service}.
Variable calculate_offset : Event -> string -> exn + Event.
Variable is_offset_reached : datetime -> Event -> exn + bool.

(** C10. When the cached event of the data object is None after its
    update, the entity's event becomes None and its offset flag, as the
    state attributes show it, stays what it was; with an event present the
    flag is computed anew from the event. *)
Theorem entity_update_flag (utcnow : Z) (now : datetime)
    (self : GoogleCalendarEventDevice.t) (env env' : Env W)
    (data' : GoogleCalendarData.t) :
  GoogleCalendarData.update utcnow now (GoogleCalendarEventDevice.data self) env
    = (env', Return data') ->
  match GoogleCalendarData.event data' with
  | None =>
      ∃ self',
        GoogleCalendarEventDevice.update calculate_offset is_offset_reached
          utcnow now (self, env) = ((self', env'), Return tt)
        ∧ GoogleCalendarEventDevice.data self' = data'
        ∧ GoogleCalendarEventDevice.event self' = None
        ∧ GoogleCalendarEventDevice._offset_reached self'
          = GoogleCalendarEventDevice._offset_reached self
        ∧ GoogleCalendarEventDevice.extra_state_attributes self'
          = GoogleCalendarEventDevice.extra_state_attributes self
  | Some ev =>
      ∀ ev' reached,
        calculate_offset ev (GoogleCalendarEventDevice._offset self) = inr ev' ->
        is_offset_reached now ev' = inr reached ->
        ∃ self',
          GoogleCalendarEventDevice.update calculate_offset is_offset_reached
            utcnow now (self, env) = ((self', env'), Return tt)
          ∧ GoogleCalendarEventDevice.event self' = Some ev'
          ∧ GoogleCalendarEventDevice._offset_reached self' = reached
  end.
Proof.
  intros Hdata.
  unfold GoogleCalendarEventDevice.update, mbind, M_bind,
    GoogleCalendarEventDevice.call_data, GoogleCalendarEventDevice.self_,
    GoogleCalendarEventDevice.assign, deepcopy.
  simpl. rewrite Hdata. simpl.
  destruct (GoogleCalendarData.event data') as [ev|].
  - intros ev' reached Hcalc Hreached. rewrite Hcalc. simpl.
    rewrite Hreached. simpl. by eexists.
  - by eexists.
Qed.

End Entity.

(** ** The theorems at work on the sample services *)

Lemma prepare_query_parameters_witness :
  ∃ params : pydict,
    _prepare_query (H := two_pages) meeting_data env0 =
      ({| world := tt; requests := requests env0; errors := errors env0 |},
       Return (Some tt, Some params))
    ∧ params !! "orderBy" = Some (VStr "startTime")
    ∧ params !! "singleEvents" = Some (VBool true)
    ∧ params !! "maxResults" = Some (VInt 100)
    ∧ params !! "calendarId" = Some (VStr "primary")
    ∧ (is_Some (params !! "q") <-> ∃ s, Some "meeting" = Some s ∧ s ≠ "")
    ∧ (∀ s, Some "meeting" = Some s -> s ≠ "" -> params !! "q" = Some (VStr s)).
Proof.
  apply (prepare_query_parameters (CS := two_pages) meeting_data env0 tt tt).
  reflexivity.
Defined.

Lemma update_unreachable_witness :
  ∃ env' self',
    update (H := unreachable) 0 (at_midnight 2024 1 1) cached_data env0
      = (env', Return self')
    ∧ event self' = Some (sample_event "standup" None)
    ∧ requests env' = [].
Proof.
  apply (update_unreachable (CS := unreachable) cached_data 0
           (at_midnight 2024 1 1) env0 tt "www.googleapis.com").
  reflexivity.
Defined.

Lemma update_next_event_witness :
  ∃ env' self',
    update_body (H := two_pages) (at_midnight 2024 1 1) meeting_data env0
      = (env', Return self')
    ∧ requests env' = requests env0 ++ [poll_query meeting_data (at_midnight 2024 1 1)]
    ∧ poll_query meeting_data (at_midnight 2024 1 1) !! "timeMin"
      = Some (VStr (isoformat (at_midnight 2024 1 1)))
    ∧ event self' = first_passing (_event_filter meeting_data) (page_items page_1).
Proof.
  apply (update_next_event (CS := two_pages) meeting_data
           (at_midnight 2024 1 1) env0 tt tt tt page_1).
  - reflexivity.
  - vm_compute. reflexivity.
Defined.

Lemma update_single_request_witness :
  requests (update_body (H := two_pages) (at_midnight 2024 1 1)
              meeting_data env0).1
  = requests env0 ++ [poll_query meeting_data (at_midnight 2024 1 1)]
  ∧ length (requests (update_body (H := two_pages) (at_midnight 2024 1 1)
                        meeting_data env0).1)
    = S (length (requests env0))
  ∧ poll_query meeting_data (at_midnight 2024 1 1) !! "pageToken" = None.
Proof.
  apply (update_single_request (CS := two_pages) meeting_data
           (at_midnight 2024 1 1) env0 tt tt).
  reflexivity.
Defined.

Lemma async_get_events_unreachable_witness :
  async_get_events (H := unreachable) 3 meeting_data
    (at_midnight 2024 1 1) (at_midnight 2024 1 2) env0
  = ({| world := tt; requests := requests env0;
        errors := errors env0
                  ++ ["Unable to connect to Google: " +:+ "www.googleapis.com"] |},
     Return []).
Proof.
  apply (async_get_events_unreachable (CS := unreachable) 3 meeting_data
           (at_midnight 2024 1 1) (at_midnight 2024 1 2) env0 tt
           "www.googleapis.com").
  reflexivity.
Defined.

Lemma async_get_events_pages_witness :
  ∃ reqs : list pydict,
    async_get_events (H := two_pages) 2 meeting_data
      (at_midnight 2024 1 1) (at_midnight 2024 1 2) env0
    = ({| world := tt; requests := requests env0 ++ reqs;
          errors := errors env0 |},
       Return (List.filter (_event_filter meeting_data)
                 (concat (List.map page_items [page_1; page_2]))))
    ∧ reqs = List.map (with_token (range_query meeting_data
                                     (at_midnight 2024 1 1) (at_midnight 2024 1 2)))
               (tokens_sent None [page_1; page_2])
    ∧ length reqs = length [page_1; page_2].
Proof.
  apply (async_get_events_pages (CS := two_pages) 2 meeting_data
           (at_midnight 2024 1 1) (at_midnight 2024 1 2) env0 tt tt tt
           [page_1; page_2]).
  - reflexivity.
  - apply (serves_next (H := two_pages) tt _ tt tt tt None page_1 "T" [page_2]).
    + vm_compute. reflexivity.
    + reflexivity.
    + discriminate.
    + apply (serves_last (H := two_pages) tt _ tt tt (Some "T") page_2).
      * vm_compute. reflexivity.
      * reflexivity.
  - simpl. lia.
Defined.

Lemma async_get_events_query_witness :
  ∃ reqs : list pydict,
    requests (async_get_events (H := two_pages) 2 meeting_data
                (at_midnight 2024 1 1) (at_midnight 2024 1 2) env0).1
    = requests env0 ++ reqs
    ∧ reqs ≠ []
    ∧ Forall (fun params : pydict =>
                params !! "q" = Some (VStr "meeting")
                ∧ params !! "timeMin" = Some (VStr "2024-01-01T00:00:00")
                ∧ params !! "timeMax" = Some (VStr "2024-01-02T00:00:00")) reqs.
Proof.
  apply (async_get_events_query (CS := two_pages) 2 meeting_data env0 tt tt).
  - reflexivity.
  - reflexivity.
  - discriminate.
Defined.

Lemma update_throttle_witness :
  ∃ env1 self1,
    update (H := two_pages) 0 (at_midnight 2024 1 1) meeting_data env0
      = (env1, Return self1)
    ∧ update (H := two_pages) 60000000 (at_midnight 2024 1 1) self1 env1
      = (env1, Return self1)
    ∧ requests (update (H := two_pages) 1000000000 (at_midnight 2024 1 2)
                  self1 env1).1
      = requests env1 ++ [poll_query self1 (at_midnight 2024 1 2)].
Proof.
  eexists _, _. split; [reflexivity|].
  apply (update_throttle (CS := two_pages) meeting_data 0 60000000 1000000000
           (at_midnight 2024 1 1) (at_midnight 2024 1 1) (at_midnight 2024 1 2)
           env0 _ _ tt tt).
  - reflexivity.
  - reflexivity.
  - vm_compute. discriminate.
  - vm_compute. reflexivity.
  - vm_compute. reflexivity.
  - reflexivity.
Defined.

Lemma entity_update_flag_witness :
  ∃ self',
    GoogleCalendarEventDevice.update (H := no_events) no_offset never_reached
      0 (at_midnight 2024 1 1) (stale_entity, env0)
    = ((self', {| world := tt;
                  requests := [poll_query meeting_data (at_midnight 2024 1 1)];
                  errors := [] |}), Return tt)
    ∧ GoogleCalendarEventDevice.data self'
      = set_throttle (set_event meeting_data None) (Some 0)
    ∧ GoogleCalendarEventDevice.event self' = None
    ∧ GoogleCalendarEventDevice._offset_reached self' = true
    ∧ GoogleCalendarEventDevice.extra_state_attributes self'
      = GoogleCalendarEventDevice.extra_state_attributes stale_entity.
Proof.
  apply (entity_update_flag (CS := no_events) no_offset never_reached
           0 (at_midnight 2024 1 1) stale_entity env0
           {| world := tt;
              requests := [poll_query meeting_data (at_midnight 2024 1 1)];
              errors := [] |}
           (set_throttle (set_event meeting_data None) (Some 0))).
  reflexivity.
Defined.

(** * Further properties of the module *)

Lemma filter_none {A : Type} (test : A -> bool) (l : list A) :
  Forall (fun x => test x = false) l -> List.filter test l = [].
Proof.
  induction 1 as [|x l Hx _ IH]; simpl; [done|]. by rewrite Hx.
Qed.

Lemma filter_all {A : Type} (test : A -> bool) (l : list A) :
  (∀ x, test x = true) -> List.filter test l = l.
Proof.
  intros Hall. induction l as [|x l IH]; simpl; [done|]. by rewrite Hall, IH.
Qed.

Lemma filter_passes {A : Type} (test : A -> bool) (l : list A) :
  Forall (fun x => test x = true) (List.filter test l).
Proof.
  apply Forall_forall. intros x Hx.
  by apply list_elem_of_In, List.filter_In in Hx as [_ Hx].
Qed.

Section More.
Context {W Service : Type} {CS : CalendarService W Service}.
Implicit Types (self : GoogleCalendarData.t) (env : Env W) (w : W).

(** ** What the ranged fetch returns *)

Lemma events_loop_visible self (events : Service) (fuel : nat) :
  ∀ (params : pydict) (tok : option string) (acc : list Event) env env'
    (l : list Event),
    Forall (fun ev => _event_filter self ev = true) acc ->
    async_get_events_loop fuel self events params tok acc env = (env', Return l) ->
    Forall (fun ev => _event_filter self ev = true) l.
Proof.
  induction fuel as [|fuel IH]; intros params tok acc env env' l Hacc; [done|].
  simpl. unfold mbind at 1, M_bind at 1.
  unfold async_get_events_page, mbind, M_bind, events_list_execute.
  destruct (execute events (world env) (<["pageToken":=of_optional tok]> params))
    as [w' [r|e|]]; simpl; [|done..].
  assert (Forall (fun ev => _event_filter self ev = true)
            (acc ++ List.filter (_event_filter self) (default [] (items r))))
    as Hacc' by (apply Forall_app; split; [done | apply filter_passes]).
  destruct (truthy (nextPageToken r)); simpl.
  - by apply IH.
  - by intros [= _ <-].
Qed.

(** X1. Whatever the service answers, every event the ranged fetch returns
    passes the visibility filter: unless availability is ignored, its
    transparency is absent or "opaque". *)
Theorem async_get_events_visible (fuel : nat) self
    (start_date end_date : datetime) env env' (l : list Event) :
  async_get_events fuel self start_date end_date env = (env', Return l) ->
  Forall (fun ev => _event_filter self ev = true) l
  ∧ (ignore_availability self = false ->
     Forall (fun ev => transparency_of ev = VStr "opaque") l).
Proof.
  intros Hrun.
  assert (Forall (fun ev => _event_filter self ev = true) l) as Hvis.
  { revert Hrun. unfold async_get_events, mbind at 1, M_bind at 1.
    destruct (_prepare_query self env) as [env1 [[[svc|] [params|]]|e|]];
      try done; try (intros [= _ <-]; constructor).
    apply events_loop_visible. constructor. }
  split; [done|]. intros Hignore.
  eapply Forall_impl; [exact Hvis|]. intros ev Hev. simpl in Hev.
  unfold _event_filter in Hev. rewrite Hignore in Hev.
  by apply eq_str_true in Hev.
Qed.

(** ** The requests of the ranged fetch *)

Lemma events_loop_tokens self (events : Service) (params : pydict)
    (fuel : nat) :
  ∀ (params0 : pydict) (tok : option string) (acc : list Event) env,
    (∀ t, with_token params0 t = with_token params t) ->
    ∃ toks : list (option string),
      requests (async_get_events_loop fuel self events params0 tok acc env).1
      = requests env ++ List.map (with_token params) toks
      ∧ (fuel ≠ O -> ∃ rest, toks = tok :: rest).
Proof.
  induction fuel as [|fuel IH]; intros params0 tok acc env Hsame.
  - exists []. simpl. by rewrite app_nil_r.
  - simpl. unfold mbind at 1, M_bind at 1.
    unfold async_get_events_page, mbind, M_bind, events_list_execute.
    change (<["pageToken":=of_optional tok]> params0) with (with_token params0 tok).
    rewrite Hsame.
    destruct (execute events (world env) (with_token params tok))
      as [w' [r|e|]]; simpl; try by (exists [tok]; split; [|eexists]).
    destruct (truthy (nextPageToken r)); simpl;
      [|by (exists [tok]; split; [|eexists])].
    edestruct (IH (with_token params tok) (nextPageToken r)
                 (acc ++ List.filter (_event_filter self) (default [] (items r)))
                 {| world := w'; requests := requests env ++ [with_token params tok];
                    errors := errors env |}) as (toks & Hreq & _).
    { intros t. by rewrite with_token_overwrite. }
    exists (tok :: toks). split; [|by eexists].
    rewrite Hreq. simpl. by rewrite <- app_assoc.
Qed.

(** X2. Once the service is obtained, every request of one ranged fetch is
    the same query, with the same calendar, window, search and page size:
    the requests differ from it in the page token alone, and the first
    request carries the token None. *)
Theorem async_get_events_same_query (fuel : nat) self
    (start_date end_date : datetime) env w (svc : Service) :
  get (world env) = (w, Return svc) ->
  ∃ reqs : list pydict,
    requests (async_get_events fuel self start_date end_date env).1
    = requests env ++ reqs
    ∧ Forall (fun params : pydict =>
                ∀ key : string, key ≠ "pageToken" ->
                  params !! key = range_query self start_date end_date !! key)
        reqs
    ∧ (fuel ≠ O -> ∃ params rest,
         reqs = params :: rest ∧ params !! "pageToken" = Some VNone).
Proof.
  intros Hget. unfold async_get_events.
  rewrite (bind_Return _ _ _ _ _ (prepare_query_reachable self _ _ _ Hget)).
  cbv beta iota zeta.
  destruct (events_loop_tokens self svc (range_query self start_date end_date)
              fuel (range_query self start_date end_date) None []
              {| world := w; requests := requests env; errors := errors env |})
    as (toks & Hreq & Hfirst); [done|].
  eexists. split; [exact Hreq|]. split.
  - apply Forall_forall. intros params Hin.
    apply list_elem_of_In, List.in_map_iff in Hin as (tok & <- & _).
    intros key Hkey. unfold with_token. by rewrite lookup_insert_ne.
  - intros Hfuel. destruct (Hfirst Hfuel) as [rest ->].
    eexists _, _. split; [reflexivity|]. unfold with_token.
    by rewrite lookup_insert_eq.
Qed.

(** X3. A page whose continuation token is the empty string ends the
    fetch like a page without a token: no further request is sent and the
    filtered items of the pages so far are returned. *)
Theorem async_get_events_empty_token (fuel : nat) self
    (start_date end_date : datetime) env w w' (svc : Service) (r : Response) :
  get (world env) = (w, Return svc) ->
  execute svc w (with_token (range_query self start_date end_date) None)
    = (w', Return r) ->
  nextPageToken r = Some "" ->
  async_get_events (S fuel) self start_date end_date env =
    ({| world := w';
        requests := requests env
                    ++ [with_token (range_query self start_date end_date) None];
        errors := errors env |},
     Return (List.filter (_event_filter self) (page_items r))).
Proof.
  intros Hget Hexec Htok. unfold async_get_events.
  rewrite (bind_Return _ _ _ _ _ (prepare_query_reachable self _ _ _ Hget)).
  cbv beta iota zeta. simpl.
  erewrite bind_Return; last first.
  { apply (events_page_Return self svc (range_query self start_date end_date));
      [done | exact Hexec]. }
  by rewrite Htok.
Qed.

(** One turn of the loop, when the request raises. *)
Lemma events_page_Raise self (events : Service) (params params0 : pydict)
    (tok : option string) (acc : list Event) env w' (e : exn) :
  (∀ t, with_token params0 t = with_token params t) ->
  execute events (world env) (with_token params tok) = (w', Raise e) ->
  async_get_events_page self events params0 tok acc env =
    ({| world := w'; requests := requests env ++ [with_token params tok];
        errors := errors env |}, Raise e).
Proof.
  intros Hsame Hexec. unfold async_get_events_page.
  change (<["pageToken":=of_optional tok]> params0) with (with_token params0 tok).
  unfold mbind, M_bind, events_list_execute.
  rewrite Hsame, Hexec. reflexivity.
Qed.

(** X4. A failure on a later page discards what the pages before it gave:
    the exception of the request leaves the fetch, no list is returned. *)
Theorem async_get_events_later_page_fails (fuel : nat) self
    (start_date end_date : datetime) env w w' w'' (svc : Service)
    (r : Response) (t : string) (e : exn) :
  get (world env) = (w, Return svc) ->
  execute svc w (with_token (range_query self start_date end_date) None)
    = (w', Return r) ->
  nextPageToken r = Some t ->
  t ≠ "" ->
  execute svc w' (with_token (range_query self start_date end_date) (Some t))
    = (w'', Raise e) ->
  async_get_events (S (S fuel)) self start_date end_date env =
    ({| world := w'';
        requests := requests env
                    ++ [with_token (range_query self start_date end_date) None;
                        with_token (range_query self start_date end_date) (Some t)];
        errors := errors env |},
     Raise e).
Proof.
  intros Hget Hexec Htok Ht Hexec'. unfold async_get_events.
  rewrite (bind_Return _ _ _ _ _ (prepare_query_reachable self _ _ _ Hget)).
  cbv beta iota zeta.
  change (async_get_events_loop (S (S fuel)) self svc ?p ?k ?a)
    with ('(params, event_list, page_token) ←
            async_get_events_page self svc p k a;
          if negb (truthy page_token) then mret event_list
          else async_get_events_loop (S fuel) self svc params page_token event_list).
  erewrite bind_Return; last first.
  { apply (events_page_Return self svc (range_query self start_date end_date));
      [done | exact Hexec]. }
  rewrite Htok, (truthy_Some _ Ht). cbn [negb].
  change (async_get_events_loop (S fuel) self svc ?p ?k ?a)
    with ('(params, event_list, page_token) ←
            async_get_events_page self svc p k a;
          if negb (truthy page_token) then mret event_list
          else async_get_events_loop fuel self svc params page_token event_list).
  erewrite bind_Raise; last first.
  { apply (events_page_Raise self svc (range_query self start_date end_date)).
    - intros t'. by rewrite with_token_overwrite.
    - exact Hexec'. }
  simpl. by rewrite <- app_assoc.
Qed.

(** X5. With availability ignored nothing is filtered: over pages served
    in turn the ranged fetch returns every item of every page, in order. *)
Theorem async_get_events_ignore_availability (fuel : nat) self
    (start_date end_date : datetime) env w w' (svc : Service)
    (pages : list Response) :
  ignore_availability self = true ->
  get (world env) = (w, Return svc) ->
  serves svc (range_query self start_date end_date) w None pages w' ->
  (length pages <= fuel)%nat ->
  (async_get_events fuel self start_date end_date env).2
  = Return (concat (List.map page_items pages)).
Proof.
  intros Hignore Hget Hserves Hfuel. unfold async_get_events.
  rewrite (bind_Return _ _ _ _ _ (prepare_query_reachable self _ _ _ Hget)).
  cbv beta iota zeta.
  rewrite (events_loop_serves self _ _ _ _ _ _ Hserves); [|done..].
  simpl. f_equal. f_equal. apply List.map_ext. intros r.
  apply filter_all. intros ev. unfold _event_filter. by rewrite Hignore.
Qed.

(** The loop against a service that always hands out a next token. *)
Lemma events_loop_endless self (events : Service) (fuel : nat) :
  (∀ w (params : pydict), ∃ w' (r : Response) (t : string),
      execute events w params = (w', Return r)
      ∧ nextPageToken r = Some t ∧ t ≠ "") ->
  ∀ (params : pydict) (tok : option string) (acc : list Event) env,
    ∃ env',
      async_get_events_loop fuel self events params tok acc env = (env', OutOfFuel)
      ∧ length (requests env') = (length (requests env) + fuel)%nat.
Proof.
  intros Hmore. induction fuel as [|fuel IH]; intros params tok acc env.
  - exists env. split; [done|]. lia.
  - simpl. unfold mbind at 1, M_bind at 1.
    unfold async_get_events_page, mbind, M_bind, events_list_execute.
    destruct (Hmore (world env) (<["pageToken":=of_optional tok]> params))
      as (w' & r & t & -> & Htok & Ht).
    simpl. rewrite Htok, (truthy_Some _ Ht). cbn [negb].
    edestruct IH as (env' & -> & Hlen). exists env'. split; [done|].
    rewrite Hlen. simpl. rewrite length_app. simpl. lia.
Qed.

(** X6. The fetch has no limit on pages of its own: against a service that
    returns a continuation token with every page it sends a request at
    every turn of its loop and never returns, however many turns it is
    given. *)
Theorem async_get_events_no_page_limit (fuel : nat) self
    (start_date end_date : datetime) env w (svc : Service) :
  get (world env) = (w, Return svc) ->
  (∀ w (params : pydict), ∃ w' (r : Response) (t : string),
      execute svc w params = (w', Return r)
      ∧ nextPageToken r = Some t ∧ t ≠ "") ->
  ∃ env',
    async_get_events fuel self start_date end_date env = (env', OutOfFuel)
    ∧ length (requests env') = (length (requests env) + fuel)%nat.
Proof.
  intros Hget Hmore. unfold async_get_events.
  rewrite (bind_Return _ _ _ _ _ (prepare_query_reachable self _ _ _ Hget)).
  cbv beta iota zeta.
  edestruct (events_loop_endless self svc fuel Hmore) as (env' & Hrun & Hlen).
  exists env'. split; [exact Hrun | exact Hlen].
Qed.

(** The fetch reads the configuration only: neither the cached event nor
    the time of the last poll matters to it. *)
Lemma events_page_frame self self' (events : Service) (params : pydict)
    (tok : option string) (acc : list Event) env :
  ignore_availability self = ignore_availability self' ->
  async_get_events_page self events params tok acc env
  = async_get_events_page self' events params tok acc env.
Proof.
  intros Hignore. unfold async_get_events_page, mbind, M_bind.
  destruct (events_list_execute events _ env) as [env1 [r|e|]]; [|done..].
  assert (List.filter (_event_filter self) (default [] (items r))
          = List.filter (_event_filter self') (default [] (items r))) as ->.
  { apply List.filter_ext. intros ev. unfold _event_filter. by rewrite Hignore. }
  done.
Qed.

Lemma events_loop_frame self self' (events : Service) (fuel : nat) :
  ignore_availability self = ignore_availability self' ->
  ∀ (params : pydict) (tok : option string) (acc : list Event) env,
    async_get_events_loop fuel self events params tok acc env
    = async_get_events_loop fuel self' events params tok acc env.
Proof.
  intros Hignore. induction fuel as [|fuel IH]; intros params tok acc env;
    [done|].
  simpl. unfold mbind, M_bind.
  rewrite (events_page_frame self self' _ _ _ _ _ Hignore).
  destruct (async_get_events_page self' events params tok acc env)
    as [env1 [[[params1 acc1] tok1]|e|]]; [|done..].
  destruct (truthy tok1); simpl; [apply IH | done].
Qed.

(** X7. The ranged fetch is not throttled and does not read the cache: two
    data objects with the same calendar, search and availability setting
    fetch alike, whatever event they cache and whenever they last polled. *)
Theorem async_get_events_frame (fuel : nat) self self'
    (start_date end_date : datetime) env :
  calendar_id self = calendar_id self' ->
  search self = search self' ->
  ignore_availability self = ignore_availability self' ->
  async_get_events fuel self start_date end_date env
  = async_get_events fuel self' start_date end_date env.
Proof.
  intros Hid Hsearch Hignore.
  assert (query_params self = query_params self') as Hquery
    by (unfold query_params; by rewrite Hid, Hsearch).
  assert (_prepare_query self env = _prepare_query self' env) as Hprep
    by (unfold _prepare_query; by rewrite Hquery).
  unfold async_get_events, mbind, M_bind. rewrite Hprep.
  destruct (_prepare_query self' env) as [env1 [[[svc|] [params|]]|e|]];
    try done.
  by apply events_loop_frame.
Qed.

(** ** More on the poll *)

(** X8. A poll that reaches the service overwrites the cache: when the page
    has no items key, or no item of it passes the filter, the cached event
    becomes None, whatever was cached before. *)
Theorem update_clears_event self (now : datetime) env w w' (svc : Service)
    (r : Response) :
  get (world env) = (w, Return svc) ->
  execute svc w (poll_query self now) = (w', Return r) ->
  Forall (fun ev => _event_filter self ev = false) (page_items r) ->
  ∃ env' self',
    update_body now self env = (env', Return self') ∧ event self' = None.
Proof.
  intros Hget Hexec Hnone. rewrite (update_body_reachable _ _ _ _ _ Hget).
  unfold mbind, M_bind, events_list_execute. simpl. rewrite Hexec. simpl.
  eexists _, _. split; [reflexivity|]. simpl.
  by rewrite (filter_none _ _ Hnone).
Qed.

(** X9. An event that a poll caches passes the visibility filter. *)
Theorem update_caches_visible self (now : datetime) env env' w (svc : Service)
    self' (ev : Event) :
  get (world env) = (w, Return svc) ->
  update_body now self env = (env', Return self') ->
  event self' = Some ev ->
  _event_filter self ev = true.
Proof.
  intros Hget. rewrite (update_body_reachable _ _ _ _ _ Hget).
  unfold mbind, M_bind, events_list_execute. simpl.
  destruct (execute svc w (poll_query self now)) as [w' [r|e|]]; simpl;
    [|done..].
  intros [= _ <-]. simpl. intros Hhead.
  apply head_Some_elem_of in Hhead.
  by apply list_elem_of_In, List.filter_In in Hhead as [_ ?].
Qed.

(** The body of [update] when its request raises. *)
Lemma update_body_request_raises self (now : datetime) env w w' (svc : Service)
    (e : exn) :
  get (world env) = (w, Return svc) ->
  execute svc w (poll_query self now) = (w', Raise e) ->
  update_body now self env =
    ({| world := w'; requests := requests env ++ [poll_query self now];
        errors := errors env |}, Raise e).
Proof.
  intros Hget Hexec. rewrite (update_body_reachable _ _ _ _ _ Hget).
  unfold mbind, M_bind, events_list_execute. simpl. by rewrite Hexec.
Qed.

(** X10. The poll guards the connection only: when the request itself
    raises, be it a ServerNotFoundError, the exception leaves [update]'s
    body after the one request, nothing is logged and no new object state
    is produced. *)
Theorem update_request_error self (now : datetime) env w w' (svc : Service)
    (e : exn) :
  get (world env) = (w, Return svc) ->
  execute svc w (poll_query self now) = (w', Raise e) ->
  update_body now self env =
    ({| world := w'; requests := requests env ++ [poll_query self now];
        errors := errors env |}, Raise e).
Proof. apply update_body_request_raises. Qed.

(** X11. Only ServerNotFoundError is handled when the client is built: any
    other exception of [calendar_service.get()] leaves the query
    construction, the ranged fetch and the poll as it is, unlogged and
    before any request. *)
Theorem get_other_error self (fuel : nat) (now start_date end_date : datetime)
    env w (msg : string) :
  get (world env) = (w, Raise (OtherError msg)) ->
  let env' := {| world := w; requests := requests env; errors := errors env |} in
  _prepare_query self env = (env', Raise (OtherError msg))
  ∧ async_get_events fuel self start_date end_date env
    = (env', Raise (OtherError msg))
  ∧ update_body now self env = (env', Raise (OtherError msg)).
Proof.
  intros Hget env'.
  assert (_prepare_query self env = (env', Raise (OtherError msg))) as Hprep.
  { unfold _prepare_query, mbind, M_bind, try_except_ServerNotFoundError,
      calendar_service_get. by rewrite Hget. }
  split; [done|]. split.
  - unfold async_get_events. by rewrite (bind_Raise _ _ _ _ _ Hprep).
  - unfold update_body. by rewrite (bind_Raise _ _ _ _ _ Hprep).
Qed.

(** X12. [update] never changes how the object searches: calendar id,
    search string and availability setting are the same after every call
    that returns. *)
Theorem update_keeps_configuration self (utcnow : Z) (now : datetime)
    env env' self' :
  update utcnow now self env = (env', Return self') ->
  calendar_id self' = calendar_id self
  ∧ search self' = search self
  ∧ ignore_availability self' = ignore_availability self.
Proof.
  unfold update, Throttle.
  destruct (throttle_open _ _ _); [|by intros [= _ <-]].
  unfold update_body, mbind, M_bind.
  destruct (_prepare_query self env) as [env1 [[[svc|] [params|]]|e|]];
    try done; try by intros [= _ <-].
  unfold events_list_execute.
  destruct (execute svc (world env1) _) as [w' [r|e|]]; simpl; [|done..].
  by intros [= _ <-].
Qed.

(** X13. A poll that could not connect still counts as the poll: it
    returns, and every call within the minimum interval after it neither
    tries to connect again nor logs anything. *)
Theorem update_no_retry self (t1 : Z) (now1 : datetime) env w (msg : string) :
  throttle_open MIN_TIME_BETWEEN_UPDATES t1 (_throttle self) = true ->
  get (world env) = (w, Raise (ServerNotFoundError msg)) ->
  ∃ env1 self1,
    update t1 now1 self env = (env1, Return self1)
    ∧ errors env1 = errors env ++ ["Unable to connect to Google: " +:+ msg]
    ∧ ∀ (t2 : Z) (now2 : datetime),
        t1 <= t2 -> t2 - t1 < MIN_TIME_BETWEEN_UPDATES ->
        update t2 now2 self1 env1 = (env1, Return self1).
Proof.
  intros Hopen Hget. rewrite (update_open _ _ _ _ Hopen).
  rewrite (bind_Return _ _ _ _ _ (update_body_unreachable self now1 _ _ _ Hget)).
  eexists _, _. split; [reflexivity|]. split; [done|].
  intros t2 now2 Hle Hlt. apply update_closed. simpl. apply Z.ltb_ge. lia.
Qed.

End More.

(** ** The query with an empty search string *)

(** X14. An empty search string is no search: the parameter set has no q
    and is the one of an object without a search. *)
Theorem query_params_empty_search (self self' : GoogleCalendarData.t) :
  search self = Some "" ->
  search self' = None ->
  calendar_id self' = calendar_id self ->
  query_params self !! "q" = None
  ∧ query_params self = query_params self'.
Proof.
  intros Hempty Hnone Hid. unfold query_params.
  rewrite Hempty, Hnone, Hid. simpl. split; [|done].
  unfold DEFAULT_GOOGLE_SEARCH_PARAMS. by simplify_map_eq.
Qed.

(** ** More on the entity *)

Section MoreEntity.
Context {W Service : Type} {CS : CalendarService W Service}.
Variable calculate_offset : Event -> string -> exn + Event.
Variable is_offset_reached : datetime -> Event -> exn + bool.

(** X15. When a helper raises on the event, the exception leaves the
    entity's [update] after the data object has been updated: the entity
    keeps its former event and offset flag beside the new cache. *)
Theorem entity_update_helper_raises (utcnow : Z) (now : datetime)
    (self : GoogleCalendarEventDevice.t) (env env' : Env W)
    (data' : GoogleCalendarData.t) (ev : Event) (e : exn) :
  GoogleCalendarData.update utcnow now (GoogleCalendarEventDevice.data self) env
    = (env', Return data') ->
  GoogleCalendarData.event data' = Some ev ->
  (calculate_offset ev (GoogleCalendarEventDevice._offset self) = inl e
   ∨ ∃ ev', calculate_offset ev (GoogleCalendarEventDevice._offset self) = inr ev'
            ∧ is_offset_reached now ev' = inl e) ->
  ∃ self',
    GoogleCalendarEventDevice.update calculate_offset is_offset_reached
      utcnow now (self, env) = ((self', env'), Raise e)
    ∧ GoogleCalendarEventDevice.data self' = data'
    ∧ GoogleCalendarEventDevice.event self' = GoogleCalendarEventDevice.event self
    ∧ GoogleCalendarEventDevice._offset_reached self'
      = GoogleCalendarEventDevice._offset_reached self.
Proof.
  intros Hdata Hev Hraise.
  unfold GoogleCalendarEventDevice.update, mbind, M_bind,
    GoogleCalendarEventDevice.call_data, GoogleCalendarEventDevice.self_,
    GoogleCalendarEventDevice.assign, deepcopy.
  simpl. rewrite Hdata. simpl. rewrite Hev.
  destruct Hraise as [Hcalc | (ev' & Hcalc & Hreached)].
  - rewrite Hcalc. simpl. by eexists.
  - rewrite Hcalc. simpl. rewrite Hreached. simpl. by eexists.
Qed.

(** X16. When the request of the poll raises, the entity's [update] raises
    the same exception and the entity, with its data object, is as it was
    before the call. *)
Theorem entity_update_request_error (utcnow : Z) (now : datetime)
    (self : GoogleCalendarEventDevice.t) (env : Env W) (w w' : W)
    (svc : Service) (e : exn) :
  throttle_open MIN_TIME_BETWEEN_UPDATES utcnow
    (_throttle (GoogleCalendarEventDevice.data self)) = true ->
  get (world env) = (w, Return svc) ->
  execute svc w (poll_query (GoogleCalendarEventDevice.data self) now)
    = (w', Raise e) ->
  GoogleCalendarEventDevice.update calculate_offset is_offset_reached
    utcnow now (self, env)
  = ((self, {| world := w';
               requests := requests env
                 ++ [poll_query (GoogleCalendarEventDevice.data self) now];
               errors := errors env |}), Raise e).
Proof.
  intros Hopen Hget Hexec.
  unfold GoogleCalendarEventDevice.update, mbind at 1, M_bind at 1,
    GoogleCalendarEventDevice.call_data.
  simpl. rewrite (update_open _ _ _ _ Hopen).
  by rewrite (bind_Raise _ _ _ _ _
               (update_body_request_raises _ now _ _ _ _ _ Hget Hexec)).
Qed.

End MoreEntity.

(** ** Setting up the platform *)

Section MorePlatform.
Variable ENTITY_ID_FORMAT : string.
Variable DEFAULT_CONF_OFFSET : string.
Variable generate_entity_id : string -> string -> string.

Lemma setup_platform_loop_tracked (calendar_id : string)
    (datas : list EntityConfig) (entities : list GoogleCalendarEventDevice.t) :
  setup_platform_loop ENTITY_ID_FORMAT DEFAULT_CONF_OFFSET generate_entity_id
    calendar_id datas entities
  = entities ++ List.map (entity_of ENTITY_ID_FORMAT DEFAULT_CONF_OFFSET
                          generate_entity_id calendar_id)
         (List.filter conf_track datas).
Proof.
  revert entities. induction datas as [|data datas IH]; intros entities; simpl.
  - by rewrite app_nil_r.
  - destruct (conf_track data); simpl.
    + by rewrite IH, <- app_assoc.
    + apply IH.
Qed.

(** X17. [setup_platform] calls [add_entities] only with discovery info in
    which some entry is tracked; the call then passes one entity per
    tracked entry, in the order of the entries and none for the others,
    never an empty list, and asks for an update before the entities are
    added. *)
Theorem setup_platform_tracked (disc_info : DiscoveryInfo) :
  setup_platform ENTITY_ID_FORMAT DEFAULT_CONF_OFFSET generate_entity_id None
  = None
  ∧ match setup_platform ENTITY_ID_FORMAT DEFAULT_CONF_OFFSET
            generate_entity_id (Some disc_info) with
    | None => Forall (fun data => conf_track data = false)
                (conf_entities disc_info)
    | Some (entities, update_before_add) =>
        update_before_add = true
        ∧ entities ≠ []
        ∧ entities
          = List.map (entity_of ENTITY_ID_FORMAT DEFAULT_CONF_OFFSET
                        generate_entity_id (conf_cal_id disc_info))
              (List.filter conf_track (conf_entities disc_info))
    end.
Proof.
  split; [done|]. unfold setup_platform.
  destruct (existsb conf_track (conf_entities disc_info)) eqn:Hany; simpl.
  - rewrite setup_platform_loop_tracked. simpl. split; [done|]. split; [|done].
    apply List.existsb_exists in Hany as (data & Hin & Htrack).
    intros Hnil.
    assert (List.In data (List.filter conf_track (conf_entities disc_info)))
      as Hin' by (by apply List.filter_In).
    apply (List.in_map (entity_of ENTITY_ID_FORMAT DEFAULT_CONF_OFFSET
                          generate_entity_id (conf_cal_id disc_info))) in Hin'.
    by rewrite Hnil in Hin'.
  - apply Forall_forall. intros data Hin.
    destruct (conf_track data) eqn:Htrack; [|done].
    assert (existsb conf_track (conf_entities disc_info) = true) as Hex.
    { apply List.existsb_exists. exists data. split; [|done].
      by apply list_elem_of_In. }
    congruence.
Qed.

(** X18. Every entity that [setup_platform] hands over is new: it shows no
    event and no reached offset, its data object is for the calendar of
    the discovery info and has cached nothing and polled never. *)
Theorem setup_platform_fresh (disc_info : DiscoveryInfo)
    (entities : list GoogleCalendarEventDevice.t) (update_before_add : bool) :
  setup_platform ENTITY_ID_FORMAT DEFAULT_CONF_OFFSET generate_entity_id
    (Some disc_info) = Some (entities, update_before_add) ->
  Forall (fun entity =>
            GoogleCalendarEventDevice.event entity = None
            ∧ GoogleCalendarEventDevice.extra_state_attributes entity
              = {[ "offset_reached" := VBool false ]}
            ∧ calendar_id (GoogleCalendarEventDevice.data entity)
              = conf_cal_id disc_info
            ∧ GoogleCalendarData.event (GoogleCalendarEventDevice.data entity)
              = None
            ∧ _throttle (GoogleCalendarEventDevice.data entity) = None)
    entities.
Proof.
  unfold setup_platform.
  destruct (existsb conf_track (conf_entities disc_info)); simpl; [|done].
  rewrite setup_platform_loop_tracked. simpl. intros [= <- _].
  apply Forall_forall. intros entity Hin.
  by apply list_elem_of_In, List.in_map_iff in Hin as (data & <- & _).
Qed.

End MorePlatform.

(** ** The further properties at work on the sample services *)

Lemma async_get_events_visible_witness :
  Forall (fun ev => _event_filter meeting_data ev = true)
    [sample_event "standup" None; sample_event "review" (Some "opaque")]
  ∧ (ignore_availability meeting_data = false ->
     Forall (fun ev => transparency_of ev = VStr "opaque")
       [sample_event "standup" None; sample_event "review" (Some "opaque")]).
Proof.
  apply (async_get_events_visible (CS := two_pages) 2 meeting_data
           (at_midnight 2024 1 1) (at_midnight 2024 1 2) env0
           {| world := tt;
              requests := List.map (with_token (range_query meeting_data
                            (at_midnight 2024 1 1) (at_midnight 2024 1 2)))
                            [None; Some "T"];
              errors := [] |}).
  vm_compute. reflexivity.
Defined.

Lemma async_get_events_same_query_witness :
  ∃ reqs : list pydict,
    requests (async_get_events (H := second_page_fails) 3 meeting_data
                (at_midnight 2024 1 1) (at_midnight 2024 1 2) env0).1
    = requests env0 ++ reqs
    ∧ Forall (fun params : pydict =>
                ∀ key : string, key ≠ "pageToken" ->
                  params !! key
                  = range_query meeting_data (at_midnight 2024 1 1)
                      (at_midnight 2024 1 2) !! key) reqs
    ∧ (3%nat ≠ O -> ∃ params rest,
         reqs = params :: rest ∧ params !! "pageToken" = Some VNone).
Proof.
  apply (async_get_events_same_query (CS := second_page_fails) 3 meeting_data
           (at_midnight 2024 1 1) (at_midnight 2024 1 2) env0 tt tt).
  reflexivity.
Defined.

Lemma async_get_events_empty_token_witness :
  async_get_events (H := empty_token) 3 meeting_data
    (at_midnight 2024 1 1) (at_midnight 2024 1 2) env0
  = ({| world := tt;
        requests := requests env0
          ++ [with_token (range_query meeting_data (at_midnight 2024 1 1)
                            (at_midnight 2024 1 2)) None];
        errors := errors env0 |},
     Return (List.filter (_event_filter meeting_data)
               (page_items {| items := Some [sample_event "standup" None];
                              nextPageToken := Some "" |}))).
Proof.
  apply (async_get_events_empty_token (CS := empty_token) 2 meeting_data
           (at_midnight 2024 1 1) (at_midnight 2024 1 2) env0 tt tt tt).
  - reflexivity.
  - reflexivity.
  - reflexivity.
Defined.

Lemma async_get_events_later_page_fails_witness :
  async_get_events (H := second_page_fails) 2 meeting_data
    (at_midnight 2024 1 1) (at_midnight 2024 1 2) env0
  = ({| world := tt;
        requests := requests env0
          ++ [with_token (range_query meeting_data (at_midnight 2024 1 1)
                            (at_midnight 2024 1 2)) None;
              with_token (range_query meeting_data (at_midnight 2024 1 1)
                            (at_midnight 2024 1 2)) (Some "T")];
        errors := errors env0 |},
     Raise (OtherError "backendError")).
Proof.
  apply (async_get_events_later_page_fails (CS := second_page_fails) 0
           meeting_data (at_midnight 2024 1 1) (at_midnight 2024 1 2) env0
           tt tt tt tt page_1 "T").
  - reflexivity.
  - vm_compute. reflexivity.
  - reflexivity.
  - discriminate.
  - vm_compute. reflexivity.
Defined.

Lemma async_get_events_ignore_availability_witness :
  (async_get_events (H := two_pages) 2
     (GoogleCalendarData.__init__ "primary" None true)
     (at_midnight 2024 1 1) (at_midnight 2024 1 2) env0).2
  = Return (concat (List.map page_items [page_1; page_2])).
Proof.
  apply (async_get_events_ignore_availability (CS := two_pages) 2
           (GoogleCalendarData.__init__ "primary" None true)
           (at_midnight 2024 1 1) (at_midnight 2024 1 2) env0 tt tt tt
           [page_1; page_2]).
  - reflexivity.
  - reflexivity.
  - apply (serves_next (H := two_pages) tt _ tt tt tt None page_1 "T" [page_2]).
    + vm_compute. reflexivity.
    + reflexivity.
    + discriminate.
    + apply (serves_last (H := two_pages) tt _ tt tt (Some "T") page_2).
      * vm_compute. reflexivity.
      * reflexivity.
  - simpl. lia.
Defined.

Lemma async_get_events_no_page_limit_witness :
  ∃ env',
    async_get_events (H := endless) 7 meeting_data
      (at_midnight 2024 1 1) (at_midnight 2024 1 2) env0 = (env', OutOfFuel)
    ∧ length (requests env') = (length (requests env0) + 7)%nat.
Proof.
  apply (async_get_events_no_page_limit (CS := endless) 7 meeting_data
           (at_midnight 2024 1 1) (at_midnight 2024 1 2) env0 tt tt).
  - reflexivity.
  - intros w params. exists w, page_1, "T".
    split; [reflexivity|]. split; [reflexivity | discriminate].
Defined.

Lemma async_get_events_frame_witness :
  async_get_events (H := two_pages) 2 meeting_data
    (at_midnight 2024 1 1) (at_midnight 2024 1 2) env0
  = async_get_events (H := two_pages) 2
      (set_throttle cached_data (Some 5)) (at_midnight 2024 1 1)
      (at_midnight 2024 1 2) env0.
Proof.
  apply (async_get_events_frame (CS := two_pages) 2 meeting_data
           (set_throttle cached_data (Some 5))); reflexivity.
Defined.

Lemma update_clears_event_witness :
  ∃ env' self',
    update_body (H := free_only) (at_midnight 2024 1 1) cached_data env0
      = (env', Return self')
    ∧ event self' = None.
Proof.
  apply (update_clears_event (CS := free_only) cached_data
           (at_midnight 2024 1 1) env0 tt tt tt
           {| items := Some [sample_event "lunch" (Some "transparent")];
              nextPageToken := None |}).
  - reflexivity.
  - reflexivity.
  - repeat constructor.
Defined.

Lemma update_caches_visible_witness :
  _event_filter meeting_data (sample_event "standup" None) = true.
Proof.
  apply (update_caches_visible (CS := two_pages) meeting_data
           (at_midnight 2024 1 1) env0
           {| world := tt;
              requests := [poll_query meeting_data (at_midnight 2024 1 1)];
              errors := [] |}
           tt tt
           (set_event meeting_data (Some (sample_event "standup" None)))).
  - reflexivity.
  - vm_compute. reflexivity.
  - reflexivity.
Defined.

Lemma update_request_error_witness :
  update_body (H := failing_request) (at_midnight 2024 1 1) cached_data env0
  = ({| world := tt;
        requests := requests env0 ++ [poll_query cached_data (at_midnight 2024 1 1)];
        errors := errors env0 |},
     Raise (ServerNotFoundError "www.googleapis.com")).
Proof.
  apply (update_request_error (CS := failing_request) cached_data
           (at_midnight 2024 1 1) env0 tt tt tt); reflexivity.
Defined.

Lemma get_other_error_witness :
  let env' := {| world := tt; requests := requests env0; errors := errors env0 |} in
  _prepare_query (H := broken) meeting_data env0
    = (env', Raise (OtherError "invalid_grant"))
  ∧ async_get_events (H := broken) 2 meeting_data (at_midnight 2024 1 1)
      (at_midnight 2024 1 2) env0 = (env', Raise (OtherError "invalid_grant"))
  ∧ update_body (H := broken) (at_midnight 2024 1 1) meeting_data env0
    = (env', Raise (OtherError "invalid_grant")).
Proof.
  apply (get_other_error (CS := broken) meeting_data 2 (at_midnight 2024 1 1)
           (at_midnight 2024 1 1) (at_midnight 2024 1 2) env0 tt "invalid_grant").
  reflexivity.
Defined.

Lemma update_keeps_configuration_witness :
  calendar_id (set_throttle (set_event meeting_data
                               (Some (sample_event "standup" None))) (Some 0))
  = calendar_id meeting_data
  ∧ search (set_throttle (set_event meeting_data
                            (Some (sample_event "standup" None))) (Some 0))
    = search meeting_data
  ∧ ignore_availability (set_throttle (set_event meeting_data
                           (Some (sample_event "standup" None))) (Some 0))
    = ignore_availability meeting_data.
Proof.
  apply (update_keeps_configuration (CS := two_pages) meeting_data 0
           (at_midnight 2024 1 1) env0
           {| world := tt;
              requests := [poll_query meeting_data (at_midnight 2024 1 1)];
              errors := [] |}).
  vm_compute. reflexivity.
Defined.

Lemma update_no_retry_witness :
  ∃ env1 self1,
    update (H := unreachable) 0 (at_midnight 2024 1 1) cached_data env0
      = (env1, Return self1)
    ∧ errors env1
      = errors env0 ++ ["Unable to connect to Google: " +:+ "www.googleapis.com"]
    ∧ ∀ (t2 : Z) (now2 : datetime),
        0 <= t2 -> t2 - 0 < MIN_TIME_BETWEEN_UPDATES ->
        update (H := unreachable) t2 now2 self1 env1 = (env1, Return self1).
Proof.
  apply (update_no_retry (CS := unreachable) cached_data 0
           (at_midnight 2024 1 1) env0 tt "www.googleapis.com"); reflexivity.
Defined.

Lemma query_params_empty_search_witness :
  query_params (GoogleCalendarData.__init__ "primary" (Some "") false) !! "q"
  = None
  ∧ query_params (GoogleCalendarData.__init__ "primary" (Some "") false)
    = query_params (GoogleCalendarData.__init__ "primary" None false).
Proof.
  apply (query_params_empty_search
           (GoogleCalendarData.__init__ "primary" (Some "") false)
           (GoogleCalendarData.__init__ "primary" None false)); reflexivity.
Defined.

Lemma entity_update_helper_raises_witness :
  ∃ self',
    GoogleCalendarEventDevice.update (H := two_pages) no_offset failing_reached
      0 (at_midnight 2024 1 1) (stale_entity, env0)
    = ((self', {| world := tt;
                  requests := [poll_query meeting_data (at_midnight 2024 1 1)];
                  errors := [] |}), Raise (OtherError "start"))
    ∧ GoogleCalendarEventDevice.data self'
      = set_throttle (set_event meeting_data
                        (Some (sample_event "standup" None))) (Some 0)
    ∧ GoogleCalendarEventDevice.event self'
      = GoogleCalendarEventDevice.event stale_entity
    ∧ GoogleCalendarEventDevice._offset_reached self'
      = GoogleCalendarEventDevice._offset_reached stale_entity.
Proof.
  apply (entity_update_helper_raises (CS := two_pages) no_offset failing_reached
           0 (at_midnight 2024 1 1) stale_entity env0
           {| world := tt;
              requests := [poll_query meeting_data (at_midnight 2024 1 1)];
              errors := [] |}
           (set_throttle (set_event meeting_data
                            (Some (sample_event "standup" None))) (Some 0))
           (sample_event "standup" None) (OtherError "start")).
  - vm_compute. reflexivity.
  - reflexivity.
  - right. exists (sample_event "standup" None). split; reflexivity.
Defined.

Lemma entity_update_request_error_witness :
  GoogleCalendarEventDevice.update (H := failing_request) no_offset never_reached
    0 (at_midnight 2024 1 1) (stale_entity, env0)
  = ((stale_entity,
      {| world := tt;
         requests := requests env0
           ++ [poll_query (GoogleCalendarEventDevice.data stale_entity)
                 (at_midnight 2024 1 1)];
         errors := errors env0 |}),
     Raise (ServerNotFoundError "www.googleapis.com")).
Proof.
  apply (entity_update_request_error (CS := failing_request) no_offset
           never_reached 0 (at_midnight 2024 1 1) stale_entity env0 tt tt tt);
    reflexivity.
Defined.

Lemma setup_platform_fresh_witness :
  Forall (fun entity =>
            GoogleCalendarEventDevice.event entity = None
            ∧ GoogleCalendarEventDevice.extra_state_attributes entity
              = {[ "offset_reached" := VBool false ]}
            ∧ calendar_id (GoogleCalendarEventDevice.data entity)
              = conf_cal_id sample_discovery
            ∧ GoogleCalendarData.event (GoogleCalendarEventDevice.data entity)
              = None
            ∧ _throttle (GoogleCalendarEventDevice.data entity) = None)
    [ GoogleCalendarEventDevice.__init__ "primary" (Some "meeting") false
        "Work" "!!" "calendar.work";
      GoogleCalendarEventDevice.__init__ "primary" None true
        "All" "##" "calendar.all" ].
Proof.
  apply (setup_platform_fresh "calendar." "!!" sample_entity_id
           sample_discovery _ true).
  reflexivity.
Defined.

(** ** Where the connection guard ends *)

(** C3, the claim as first stated, refuted: against a service whose client
    is built but whose requests cannot find the server, the ranged fetch
    does not return the empty list, the ServerNotFoundError of the first
    page request reaches the caller. *)
Lemma async_get_events_unreachable_counterexample :
  (async_get_events (H := failing_request) 3 meeting_data
     (at_midnight 2024 1 1) (at_midnight 2024 1 2) env0).2
  = Raise (ServerNotFoundError "www.googleapis.com")
  ∧ ¬ (∃ env', async_get_events (H := failing_request) 3 meeting_data
                 (at_midnight 2024 1 1) (at_midnight 2024 1 2) env0
               = (env', Return [])).
Proof.
  split; [reflexivity|].
  intros [env' Hrun].
  apply (f_equal snd) in Hrun. vm_compute in Hrun. discriminate Hrun.
Qed.

(** C4, the claim as first stated, refuted: against the same service a
    first call of [update] on an object with a cached event does not
    return, the ServerNotFoundError of its request reaches the caller. *)
Lemma update_unreachable_counterexample :
  (update (H := failing_request) 0 (at_midnight 2024 1 1) cached_data env0).2
  = Raise (ServerNotFoundError "www.googleapis.com")
  ∧ ¬ (∃ env' self',
         update (H := failing_request) 0 (at_midnight 2024 1 1) cached_data env0
         = (env', Return self')).
Proof.
  split; [reflexivity|].
  intros (env' & self' & Hrun).
  apply (f_equal snd) in Hrun. vm_compute in Hrun. discriminate Hrun.
Qed.
